(** * Optimize: the website-archive optimiser and its dashboard

    The development has two halves.

    - [Js], [Dashboard] and [FileUpload] embed the TypeScript front end
      that is present in the source tree:
      [frontend/src/components/Dashboard.tsx] and the [FileUpload]
      component.  Browser and engine built-ins ([String], [JSON.parse],
      [URL.createObjectURL], the message of a [TypeError]) are Section
      variables.
    - [Pipeline] covers the server-side optimisation pipeline.  Its code
      (the FastAPI application named by the Dockerfile's
      [uvicorn main:app]) is not part of the source tree; the
      definitions that stand for it are modelled from the specification
      and say so.  The one constant the source tree does fix, the
      Dockerfile's [MAX_FILE_SIZE], is taken from it. *)

From Stdlib Require Import QArith.
From Stdlib.Strings Require Import Byte Ascii String.
From stdpp Require Import base decidable option numbers list strings gmap sorting.

Local Open Scope string_scope.
Set Warnings "-register-all".

(* ===================================================================== *)
(** * Part I: definitions *)
(* ===================================================================== *)

(** ** JavaScript values, as far as the dashboard inspects them *)

Module Js.

(** A value produced by [JSON.parse], plus [undefined].  JSON numbers are
    kept as exact rationals.  An object is its list of own properties. *)
Inductive JsValue : Type :=
| JUndefined
| JNull
| JBool (b : bool)
| JNum (q : Q)
| JStr (s : string)
| JArr (items : list JsValue)
| JObj (props : list (string * JsValue)).

(** What a JavaScript [catch] receives: an [Error] instance with its
    [message], or some other thrown value. *)
Inductive Thrown : Type :=
| ThrownError (msg : string)
| ThrownOther.

(** Result of an awaited or throwing computation. *)
Definition Exn (A : Type) : Type := A + Thrown.

Definition ret {A} (a : A) : Exn A := inl a.
Definition throw {A} (t : Thrown) : Exn A := inr t.
Definition bind {A B} (m : Exn A) (k : A -> Exn B) : Exn B :=
  match m with
  | inl a => k a
  | inr t => inr t
  end.

Notation "'await' x ':=' m 'in' k" := (bind m (fun x => k))
  (at level 10, x name, m at level 100, k at level 200).

(** [Number.prototype.toString] of the engine, on the rationals that stand
    for JSON numbers. *)
Section Conversions.
Variable Number_toString : Q -> string.

(** [String(v)], the conversion [new Error(v)] applies to its argument. *)
Fixpoint js_String (v : JsValue) : string :=
  match v with
  | JUndefined => "undefined"
  | JNull => "null"
  | JBool true => "true"
  | JBool false => "false"
  | JNum q => Number_toString q
  | JStr s => s
  | JArr items =>
      String.concat ","
        (map (fun item =>
                match item with
                | JUndefined | JNull => ""
                | _ => js_String item
                end) items)
  | JObj _ => "[object Object]"
  end.
End Conversions.

(** [ToBoolean]: the test behind [if (v)], [v ? a : b], [v || d], [v && e]. *)
Definition truthy (v : JsValue) : bool :=
  match v with
  | JUndefined | JNull => false
  | JBool b => b
  | JNum q => negb (Qeq_bool q 0)
  | JStr s => negb (String.eqb s "")
  | JArr _ | JObj _ => true
  end.

Fixpoint own_prop (k : string) (props : list (string * JsValue)) : JsValue :=
  match props with
  | [] => JUndefined
  | (k', v) :: rest => if String.eqb k k' then v else own_prop k rest
  end.

(** [v.k] for a key that no prototype defines ([stats], [total_files],
    [size_reduction], [detail]): [None] is the [TypeError] raised on
    [null] and [undefined]. *)
Definition get_prop (v : JsValue) (k : string) : option JsValue :=
  match v with
  | JUndefined | JNull => None
  | JObj props => Some (own_prop k props)
  | JBool _ | JNum _ | JStr _ | JArr _ => Some JUndefined
  end.

(** [v?.k]: optional chaining short-circuits to [undefined]. *)
Definition opt_chain (v : JsValue) (k : string) : JsValue :=
  match get_prop v k with
  | Some w => w
  | None => JUndefined
  end.

End Js.

(** ** The FileUpload component *)

Module FileUpload.

(** The attributes of a browser [File] the component and its dropzone
    look at. *)
Record File : Type := {
  name : string;
  type : string;
  size : N
}.

(** The options object passed to [useDropzone] (without [onDrop]). *)
Record DropzoneOptions : Type := {
  accept : list (string * list string);
  maxSize : N;
  multiple : bool
}.

Definition dropzoneOptions : DropzoneOptions :=
  {| accept := [("application/zip", [".zip"]);
                ("application/x-zip-compressed", [".zip"])];
     maxSize := 100 * 1024 * 1024;
     multiple := false |}.

(** [onDrop]: the new [uploadedFiles] and the arguments of the calls
    made to [onFileUpload], in order. *)
Definition onDrop (uploadedFiles acceptedFiles : list File)
  : list File * list File :=
  match acceptedFiles !! 0%nat with
  | Some file => ((uploadedFiles ++ [file])%list, [file])
  | None => (uploadedFiles, [])
  end.

(** [removeFile]: [uploadedFiles.filter((_, i) => i !== index)] *)
Definition removeFile (uploadedFiles : list File) (index : nat) : list File :=
  map snd
    (List.filter (fun p => negb (Nat.eqb (fst p) index))
       (imap (fun i f => (i, f)) uploadedFiles)).

Section Dropzone.
(** react-dropzone: the files of a drop event that it hands to [onDrop]
    as [acceptedFiles], for given options. *)
Variable useDropzone : DropzoneOptions -> list File -> list File.

(** A drop on the component: the library filters with the component's
    options and calls [onDrop]. *)
Definition handleDropEvent (uploadedFiles dropped : list File)
  : list File * list File :=
  onDrop uploadedFiles (useDropzone dropzoneOptions dropped).
End Dropzone.

End FileUpload.

(** ** Dashboard.tsx *)

Module Dashboard.
Import Js.

(** [interface OptimizationResult]; [report] is whatever [JSON.parse]
    returned, or [null]. *)
Record OptimizationResult : Type := {
  download_url : string;
  report : JsValue;
  message : string
}.

(** The [useState] cells of the component. *)
Record State : Type := {
  activeTab : string;
  githubUrl : string;
  isProcessing : bool;
  progress : Z;
  result : option OptimizationResult;
  error : option string;
  progressMessage : string
}.

Definition initialState : State :=
  {| activeTab := "upload"; githubUrl := ""; isProcessing := false;
     progress := 0; result := None; error := None; progressMessage := "" |}.

Definition setIsProcessing (b : bool) (st : State) : State :=
  {| activeTab := activeTab st; githubUrl := githubUrl st; isProcessing := b;
     progress := progress st; result := result st; error := error st;
     progressMessage := progressMessage st |}.
Definition setProgress (p : Z) (st : State) : State :=
  {| activeTab := activeTab st; githubUrl := githubUrl st;
     isProcessing := isProcessing st; progress := p; result := result st;
     error := error st; progressMessage := progressMessage st |}.
Definition setResult (r : option OptimizationResult) (st : State) : State :=
  {| activeTab := activeTab st; githubUrl := githubUrl st;
     isProcessing := isProcessing st; progress := progress st; result := r;
     error := error st; progressMessage := progressMessage st |}.
Definition setError (e : option string) (st : State) : State :=
  {| activeTab := activeTab st; githubUrl := githubUrl st;
     isProcessing := isProcessing st; progress := progress st;
     result := result st; error := e; progressMessage := progressMessage st |}.

(** What the component observes of the [fetch] response to
    [POST /optimize/upload]. *)
Record Response : Type := {
  ok : bool;
  (** [response.json()]: [None] when the promise rejects *)
  json : option JsValue;
  (** [response.blob()] *)
  blob : Exn (list byte);
  (** [response.headers.get('X-Optimization-Report')] *)
  reportHeader : option string
}.

(** [verifyZipFile]: the size test, then the first two bytes of
    [blob.slice(0, 4)] against the PK header. *)
Definition verifyZipFile (b : list byte) : bool :=
  if (length b <? 4)%nat then false
  else
    let arr := take 4 b in
    match arr !! 0%nat, arr !! 1%nat with
    | Some b0, Some b1 => Byte.eqb b0 x50 && Byte.eqb b1 x4b
    | _, _ => false
    end.

Section Handlers.
(** [fetch('http://localhost:8000/optimize/upload', { method: 'POST',
    body: formData })] for the form data that holds the file: the
    response, or the rejection of the promise. *)
Variable fetch : FileUpload.File -> Exn Response.
Variable Number_toString : Q -> string.
(** [JSON.parse]; a [SyntaxError] is an [Error] with an engine message. *)
Variable JSON_parse : string -> Exn JsValue.
(** [window.URL.createObjectURL] *)
Variable createObjectURL : list byte -> string.
(** the message of the [TypeError] raised by reading [detail] of [null] *)
Variable TypeError_message : string.

(** The body of the [try] block of [handleFileUpload]: the value passed
    to [setResult], or what is thrown. *)
Definition uploadAttempt (file : FileUpload.File) : Exn OptimizationResult :=
  await response := fetch file in
  if negb (ok response) then
    let error := match json response with Some v => v | None => JObj [] end in
    match get_prop error "detail" with
    | None => throw (ThrownError TypeError_message)
    | Some detail =>
        throw (ThrownError
                 (if truthy detail then js_String Number_toString detail
                  else "Upload failed"))
    end
  else
    await blob := blob response in
    let zipValid := verifyZipFile blob in
    if negb zipValid then
      throw (ThrownError "Invalid ZIP file received from server")
    else
      let report := reportHeader response in
      await parsed :=
        match report with
        | Some text => if negb (String.eqb text "") then JSON_parse text
                       else ret JNull
        | None => ret JNull
        end in
      ret {| download_url := createObjectURL blob;
             report := parsed;
             message := "Optimization complete!" |}.

(** [handleFileUpload]: the four resets, the [try] block, [catch] and
    [finally]. *)
Definition handleFileUpload (file : FileUpload.File) (st : State) : State :=
  let st := setError None (setResult None (setProgress 0 (setIsProcessing true st))) in
  let st :=
    match uploadAttempt file with
    | inl r => setResult (Some r) st
    | inr (ThrownError msg) => setError (Some msg) st
    | inr ThrownOther => setError (Some "Upload failed") st
    end in
  setIsProcessing false st.

(** [<FileUpload onFileUpload={handleFileUpload} .../>]: a drop on the
    upload tab runs [handleFileUpload] on each file the component
    forwards. *)
Definition uploadTabDrop
    (useDropzone : FileUpload.DropzoneOptions -> list FileUpload.File
                   -> list FileUpload.File)
    (uploadedFiles dropped : list FileUpload.File) (st : State) : State :=
  fold_left (fun st file => handleFileUpload file st)
    (FileUpload.handleDropEvent useDropzone uploadedFiles dropped).2 st.

End Handlers.

(** [handleDownload]: the [href] and [download] attributes of the anchor
    that is clicked, if any. *)
Definition handleDownload (st : State) : option (string * string) :=
  match result st with
  | Some r => if String.eqb (download_url r) "" then None
              else Some (download_url r, "optimized-website.zip")
  | None => None
  end.

(** A table cell of the results panel. [CellPercent q] is the text
    [q.toFixed(2)] followed by a percent sign. *)
Inductive Cell : Type :=
| CellValue (v : JsValue)
| CellText (s : string)
| CellPercent (q : Q)
| CellTypeError.

(** [{result.report.stats?.total_files || 'N/A'}] *)
Definition filesProcessedCell (rep : JsValue) : Cell :=
  match get_prop rep "stats" with
  | None => CellTypeError
  | Some stats =>
      let v := opt_chain stats "total_files" in
      if truthy v then CellValue v else CellText "N/A"
  end.

(** [{result.report.stats?.size_reduction
       ? `${result.report.stats.size_reduction.toFixed(2)}%` : 'N/A'}] *)
Definition sizeReductionCell (rep : JsValue) : Cell :=
  match get_prop rep "stats" with
  | None => CellTypeError
  | Some stats =>
      let v := opt_chain stats "size_reduction" in
      if truthy v then
        match v with
        | JNum q => CellPercent q
        | _ => CellTypeError
        end
      else CellText "N/A"
  end.

Record ResultsPanel : Type := {
  panelMessage : string;
  (** the two cells, under [{result.report && (...)}] *)
  panelCells : option (Cell * Cell);
  (** the "Download Optimized Files" anchor *)
  panelDownload : bool
}.

(** The "Optimization Results" grid: rendered under
    [{result.report && (...)}]. *)
Definition reportCells (rep : JsValue) : option (Cell * Cell) :=
  if truthy rep then Some (filesProcessedCell rep, sizeReductionCell rep)
  else None.

(** The "Results Display" block: rendered under [{result && (...)}]. *)
Definition resultsDisplay (st : State) : option ResultsPanel :=
  match result st with
  | None => None
  | Some r =>
      Some {| panelMessage := message r;
              panelCells := reportCells (report r);
              panelDownload := true |}
  end.

(** The field names section 6 of the specification gives the report. *)
Definition specFieldNames : list string :=
  ["totalFiles"; "sizeReductionPercent"; "perCategoryStats"; "failures"].

End Dashboard.

(** ** The optimisation pipeline *)

Module Pipeline.

(** The ceiling the deployment configures: [MAX_FILE_SIZE=52428800] in the
    Dockerfile's [ENV] block. *)
Definition MAX_FILE_SIZE : N := 52428800.

(** Modelled from the spec: the server code that defines the categories
    is missing; section 3, [FileCategory]. *)
Inductive FileCategory : Type :=
| HTML | CSS | SCSS | JavaScript | TypeScript | Image | Other.

#[export] Instance FileCategory_eq_dec : EqDecision FileCategory.
Proof. solve_decision. Defined.

Definition category_code (c : FileCategory) : nat :=
  match c with
  | HTML => 0 | CSS => 1 | SCSS => 2 | JavaScript => 3
  | TypeScript => 4 | Image => 5 | Other => 6
  end.

Definition category_of_code (n : nat) : FileCategory :=
  match n with
  | 0 => HTML | 1 => CSS | 2 => SCSS | 3 => JavaScript
  | 4 => TypeScript | 5 => Image | _ => Other
  end.

#[export] Instance FileCategory_countable : Countable FileCategory.
Proof.
  apply (inj_countable' category_code category_of_code).
  by intros [].
Defined.

(** Modelled from the spec: the outcome status of the missing transform
    code; section 3, [TransformOutcome.status]. *)
Inductive Status : Type := Success | Skipped | Failed.

#[export] Instance Status_eq_dec : EqDecision Status.
Proof. solve_decision. Defined.

(** Modelled from the spec: the typed errors of the missing server code;
    section 7, the fatal taxonomy. *)
Inductive FatalError : Type :=
| CorruptArchive | ArchiveTooLarge | EmptyArchive | UnsafePath
| SourceFetchFailed | BatchTimeout.

#[export] Instance FatalError_eq_dec : EqDecision FatalError.
Proof. solve_decision. Defined.

(** Modelled from the spec: the record of the missing Archive Reader;
    section 3, [SourceFile]. *)
Record SourceFile : Type := {
  path : string;
  bytes : list byte;
  declaredType : option string
}.

(** Modelled from the spec: the per-file record of the missing
    orchestrator; section 3, [TransformOutcome]. *)
Record TransformOutcome : Type := {
  outcomePath : string;
  category : FileCategory;
  originalSize : N;
  optimizedSize : N;
  status : Status;
  errorDetail : option string;
  outputBytes : list byte
}.

(** Modelled from the spec: the value of [perCategoryStats] in the
    missing aggregator; section 3. *)
Record CategoryStats : Type := {
  count : N;
  originalBytes : N;
  optimizedBytes : N
}.

(** Modelled from the spec: an element of the report's [failures] in the
    missing aggregator; section 3. *)
Record Failure : Type := {
  failurePath : string;
  failureDetail : option string
}.

(** Modelled from the spec: the report of the missing aggregator;
    section 3, [OptimizationReport].  The percentage, a float there, is an
    exact rational here. *)
Record OptimizationReport : Type := {
  totalFiles : N;
  filesOptimized : N;
  filesFailed : N;
  totalOriginalBytes : N;
  totalOptimizedBytes : N;
  sizeReductionPercent : Q;
  perCategoryStats : gmap FileCategory CategoryStats;
  failures : list Failure
}.

(** Modelled from the spec: the configuration of the missing server
    code; the size ceiling of sections 4.1 and 6 and the bounded sniffing
    prefix of section 4.2. *)
Record Config : Type := {
  sizeCeiling : N;
  sniffPrefix : nat
}.

(** *** Archive Reader (section 4.1) *)

(** Modelled from the spec: the entries of an archive's directory
    listing, read by the missing Archive Reader; section 4.1
    distinguishes regular files from directory entries. *)
Inductive EntryKind : Type := RegularFile | Directory.

(** Modelled from the spec: one entry of the listing the missing Archive
    Reader decodes, with its uncompressed bytes. *)
Record ArchiveEntry : Type := {
  entryPath : string;
  entryKind : EntryKind;
  entryBytes : list byte;
  entryType : option string
}.

(** Modelled from the spec: the input of the missing Archive Reader, a
    byte stream whose header or central directory is unreadable, or one
    that decodes to a listing. *)
Inductive Archive : Type :=
| Unreadable
| Listing (entries : list ArchiveEntry).

(** Modelled from the spec: the missing path check of the Archive
    Reader; the slash-separated segments of a path (section 3). *)
Fixpoint segments (s : string) : list string :=
  match s with
  | EmptyString => [EmptyString]
  | String c rest =>
      if Ascii.eqb c "/"%char then EmptyString :: segments rest
      else match segments rest with
           | seg :: more => String c seg :: more
           | [] => [String c EmptyString]
           end
  end.

(** Modelled from the spec: the missing path check of the Archive
    Reader; walking the segments, a [..] taken at depth zero leaves the
    archive root. *)
Fixpoint climbs_out (depth : nat) (segs : list string) : bool :=
  match segs with
  | [] => false
  | seg :: rest =>
      if String.eqb seg ".." then
        match depth with
        | O => true
        | S d => climbs_out d rest
        end
      else if String.eqb seg "" || String.eqb seg "." then climbs_out depth rest
      else climbs_out (S depth) rest
  end.

(** Modelled from the spec: the missing path check of the Archive
    Reader; "path entries that escape the archive root ([../]
    traversal)", section 4.1. *)
Definition escapes_root (p : string) : bool := climbs_out 0 (segments p).

(** Sum of a byte count over a list. *)
Definition sumN {A : Type} (f : A -> N) (l : list A) : N :=
  foldr (fun x acc => (f x + acc)%N) 0%N l.

(** Modelled from the spec: the missing size check of the Archive
    Reader; "cumulative uncompressed size", section 4.1. *)
Definition cumulative_size (entries : list ArchiveEntry) : N :=
  sumN (fun e => N.of_nat (length (entryBytes e))) entries.

(** Modelled from the spec: the missing Archive Reader; directory
    entries are skipped, regular files become [SourceFile] records in
    listing order. *)
Definition source_files (entries : list ArchiveEntry) : list SourceFile :=
  omap (fun e =>
          match entryKind e with
          | RegularFile =>
              Some {| path := entryPath e; bytes := entryBytes e;
                      declaredType := entryType e |}
          | Directory => None
          end) entries.

(** Modelled from the spec: the missing Archive Reader, section 4.1.  An
    unreadable header is reported first; the size ceiling, which bounds
    memory, is checked before the entries are looked at; then the paths
    of the listing; then emptiness. *)
Definition read_archive (cfg : Config) (a : Archive)
  : list SourceFile + FatalError :=
  match a with
  | Unreadable => inr CorruptArchive
  | Listing entries =>
      if (sizeCeiling cfg <? cumulative_size entries)%N then inr ArchiveTooLarge
      else if existsb (fun e => escapes_root (entryPath e)) entries
      then inr UnsafePath
      else
        match source_files entries with
        | [] => inr EmptyArchive
        | files => inl files
        end
  end.

(** *** Stats Aggregator (section 4.5) *)

(** Modelled from the spec: the running totals of the missing
    aggregator, folded over the outcome sequence in a single pass. *)
Record Totals : Type := {
  seen : N;
  succeeded : N;
  failed : N;
  bytesIn : N;
  bytesOut : N;
  byCategory : gmap FileCategory CategoryStats;
  failedSoFar : list Failure
}.

Definition noTotals : Totals :=
  {| seen := 0; succeeded := 0; failed := 0; bytesIn := 0; bytesOut := 0;
     byCategory := ∅; failedSoFar := [] |}.

Definition noStats : CategoryStats :=
  {| count := 0; originalBytes := 0; optimizedBytes := 0 |}.

(** Modelled from the spec: the per-category update of the missing
    aggregator; "per-category byte/count totals". *)
Definition bump (o : TransformOutcome) (s : CategoryStats) : CategoryStats :=
  {| count := count s + 1;
     originalBytes := originalBytes s + originalSize o;
     optimizedBytes := optimizedBytes s + optimizedSize o |}.

(** Modelled from the spec: one step of the missing aggregator's fold. *)
Definition record_outcome (t : Totals) (o : TransformOutcome) : Totals :=
  {| seen := seen t + 1;
     succeeded := if decide (status o = Success) then succeeded t + 1 else succeeded t;
     failed := if decide (status o = Failed) then failed t + 1 else failed t;
     bytesIn := bytesIn t + originalSize o;
     bytesOut := bytesOut t + optimizedSize o;
     byCategory :=
       <[category o := bump o (default noStats (byCategory t !! category o))]>
         (byCategory t);
     failedSoFar :=
       if decide (status o = Failed)
       then failedSoFar t ++ [{| failurePath := outcomePath o;
                                 failureDetail := errorDetail o |}]
       else failedSoFar t |}%N%list.

Definition tally (outcomes : list TransformOutcome) : Totals :=
  fold_left record_outcome outcomes noTotals.

(** Modelled from the spec: the division of the missing aggregator, as a
    partial operation: [None] is a division by zero. *)
Definition checked_div (n d : Q) : option Q :=
  if Qeq_bool d 0 then None else Some (n / d)%Q.

(** Modelled from the spec: the missing aggregator's
    [(totalOriginalBytes - totalOptimizedBytes) / totalOriginalBytes * 100],
    "defined as 0 when totalOriginalBytes == 0"; section 4.5. *)
Definition reduction_percent (original optimized : N) : option Q :=
  if (original =? 0)%N then Some 0%Q
  else
    q ← checked_div (inject_Z (Z.of_N original - Z.of_N optimized))
                    (inject_Z (Z.of_N original));
    Some (q * 100)%Q.

(** Modelled from the spec: the missing aggregator's finalisation;
    [None] only if the percentage faults. *)
Definition finalize (t : Totals) : option OptimizationReport :=
  pct ← reduction_percent (bytesIn t) (bytesOut t);
  Some {| totalFiles := seen t;
          filesOptimized := succeeded t;
          filesFailed := failed t;
          totalOriginalBytes := bytesIn t;
          totalOptimizedBytes := bytesOut t;
          sizeReductionPercent := pct;
          perCategoryStats := byCategory t;
          failures := failedSoFar t |}.

(** Modelled from the spec: the missing Stats Aggregator, section 4.5. *)
Definition aggregate (outcomes : list TransformOutcome)
  : option OptimizationReport :=
  finalize (tally outcomes).

(** Modelled from the spec: the [filesSkipped] of the invariant in
    section 3; the report record has no such field, so it is counted on
    the outcome sequence the missing aggregator folds. *)
Definition filesSkipped (outcomes : list TransformOutcome) : N :=
  N.of_nat (length (List.filter (fun o => bool_decide (status o = Skipped)) outcomes)).

(** *** Orchestrator (section 4.4) and Writer (section 4.6) *)

(** Modelled from the spec: the batch states of the missing
    orchestrator, [Pending → Running → Completed | Aborted].  A running
    batch holds the outcomes collected so far, newest first, each with
    the position of its file in the archive. *)
Inductive BatchState : Type :=
| Pending
| Running (collected : list (nat * TransformOutcome))
| Completed (collected : list (nat * TransformOutcome))
| Aborted (e : FatalError).

(** Modelled from the spec: what the missing orchestrator reacts to: its
    own start, a worker finishing the task of the file at a position, and
    the single cancellation/timeout signal of section 5. *)
Inductive Event : Type :=
| EvStart
| EvTaskDone (i : nat)
| EvDeadline.

#[export] Instance Event_eq_dec : EqDecision Event.
Proof. solve_decision. Defined.

(** Modelled from the spec: the missing orchestrator's size limit, on
    the file listing it is handed. *)
Definition total_bytes (files : list SourceFile) : N :=
  sumN (fun f => N.of_nat (length (bytes f))) files.

(** Modelled from the spec: the order of the missing Archive Writer,
    "original archive order": by position in the listing. *)
Definition earlier (x y : nat * TransformOutcome) : Prop := (x.1 ≤ y.1)%nat.

#[export] Instance earlier_dec x y : Decision (earlier x y).
Proof. unfold earlier. apply _. Defined.

#[export] Instance earlier_trans : Transitive earlier.
Proof. unfold earlier. intros x y z. lia. Qed.

#[export] Instance earlier_total : Total earlier.
Proof. unfold earlier. intros x y. lia. Qed.

(** Modelled from the spec: the missing Archive Writer "re-sorts by
    original archive order before serialization". *)
Definition by_archive_order (collected : list (nat * TransformOutcome))
  : list (nat * TransformOutcome) :=
  merge_sort earlier collected.

(** Modelled from the spec: the missing Archive Writer's entries,
    [(path, outputBytes)] in archive order; [outputBytes] already holds the
    original bytes of a file that was not optimised. *)
Definition write_entries (collected : list (nat * TransformOutcome))
  : list (string * list byte) :=
  map (fun p => (outcomePath p.2, outputBytes p.2)) (by_archive_order collected).

(** Modelled from the spec: what the missing entry point returns: an
    output archive with its report, or a single typed error.
    [Unfinished] is a batch whose events have not ended it yet;
    [Faulted] is an arithmetic fault of the aggregator. *)
Inductive PipelineResult : Type :=
| Delivered (entries : list (string * list byte)) (payload : list byte)
            (rep : OptimizationReport)
| Rejected (e : FatalError)
| Unfinished
| Faulted.

Section Registry.

(** Modelled from the spec: the missing Type Classifier of section 4.2, a
    pure function of the path and a bounded content prefix. *)
Variable classify : string -> list byte -> FileCategory.

(** Modelled from the spec: the missing Transform Registry of section
    4.3, [optimize(bytes, category, options) -> (outputBytes, status,
    errorDetail)]; the minifiers behind it are library calls. *)
Variable optimize : list byte -> FileCategory -> list byte * Status * option string.

(** Modelled from the spec: the missing Archive Writer's encoder, from
    the ordered entries to the bytes of the output archive. *)
Variable serialize : list (string * list byte) -> list byte.

Variable cfg : Config.

(** Modelled from the spec: one task of the missing orchestrator.
    [Other] is always [Skipped] with its bytes unchanged; a file that is
    not a [Success] passes through with its original bytes; the sizes are
    those of the bytes read and of the bytes emitted. *)
Definition run_transform (f : SourceFile) : TransformOutcome :=
  let c := classify (path f) (take (sniffPrefix cfg) (bytes f)) in
  let '(out, st, detail) :=
    match c with
    | Other => (bytes f, Skipped, None)
    | _ => optimize (bytes f) c
    end in
  let emitted := match st with Success => out | _ => bytes f end in
  {| outcomePath := path f;
     category := c;
     originalSize := N.of_nat (length (bytes f));
     optimizedSize := N.of_nat (length emitted);
     status := st;
     errorDetail := detail;
     outputBytes := emitted |}.

(** Modelled from the spec: the transition function of the missing
    orchestrator.  Starting checks the size limit; a finished task adds
    its outcome once; the batch completes when every file has one; the
    deadline aborts a batch that has not ended; ended batches stay. *)
Definition step (files : list SourceFile) (st : BatchState) (ev : Event)
  : BatchState :=
  match st, ev with
  | Pending, EvStart =>
      if (sizeCeiling cfg <? total_bytes files)%N then Aborted ArchiveTooLarge
      else match files with
           | [] => Completed []
           | _ => Running []
           end
  | Pending, EvDeadline => Aborted BatchTimeout
  | Running collected, EvTaskDone i =>
      match files !! i with
      | Some f =>
          if bool_decide (i ∈ collected.*1) then Running collected
          else
            let collected' := (i, run_transform f) :: collected in
            if (length collected' =? length files)%nat
            then Completed collected'
            else Running collected'
      | None => Running collected
      end
  | Running _, EvDeadline => Aborted BatchTimeout
  | _, _ => st
  end.

Definition run_batch (files : list SourceFile) (events : list Event)
  : BatchState :=
  fold_left (step files) events Pending.

(** One outcome for each source file, with its position: what a
    completed batch is compared with. *)
Definition outcome_table (files : list SourceFile)
  : list (nat * TransformOutcome) :=
  imap (fun i f => (i, run_transform f)) files.

(** The collected outcomes are outcomes of files of the batch, no
    position twice. *)
Definition collected_ok (files : list SourceFile)
    (collected : list (nat * TransformOutcome)) : Prop :=
  NoDup collected.*1 ∧ ∀ x, x ∈ collected → x ∈ outcome_table files.

(** The invariant of the batch: a running batch still misses an outcome,
    a completed batch has them all. *)
Definition state_ok (files : list SourceFile) (st : BatchState) : Prop :=
  match st with
  | Pending | Aborted _ => True
  | Running collected =>
      collected_ok files collected ∧ (length collected < length files)%nat
  | Completed collected =>
      collected_ok files collected ∧ length collected = length files
  end.

(** Modelled from the spec: the hand-over of the missing orchestrator on
    [Completed] to the Aggregator and the Writer, and the single error of
    an aborted batch. *)
Definition conclude (st : BatchState) : PipelineResult :=
  match st with
  | Completed collected =>
      match aggregate (by_archive_order collected).*2 with
      | Some rep =>
          let entries := write_entries collected in
          Delivered entries (serialize entries) rep
      | None => Faulted
      end
  | Aborted e => Rejected e
  | Pending | Running _ => Unfinished
  end.

(** Modelled from the spec: the missing archive ingestion entry point of
    section 6: Reader, then the batch driven by the events of its workers
    and its clock, then Aggregator and Writer. *)
Definition optimize_archive (a : Archive) (events : list Event)
  : PipelineResult :=
  match read_archive cfg a with
  | inr e => Rejected e
  | inl files => conclude (run_batch files (EvStart :: events))
  end.

(** Modelled from the spec: the file a second run reads back from the
    output archive of the first, for the idempotence property of
    section 8. *)
Definition resubmitted (f : SourceFile) : SourceFile :=
  {| path := path f; bytes := outputBytes (run_transform f);
     declaredType := None |}.

(** Modelled from the spec: the idempotence contract of section 4.3 for
    one file, "re-running it on its own output either no-ops or yields no
    further size change", as far as sizes go: the second pass does not
    emit fewer bytes than it reads. *)
Definition no_further_reduction (f : SourceFile) : Prop :=
  (length (bytes (resubmitted f))
   ≤ length (outputBytes (run_transform (resubmitted f))))%nat.

End Registry.

(** Modelled from the spec: the output archive of one run, handed to the
    missing Archive Reader as the input of the next. *)
Definition as_archive (entries : list (string * list byte)) : Archive :=
  Listing ((fun e => {| entryPath := e.1; entryKind := RegularFile;
                        entryBytes := e.2; entryType := None |}) <$> entries).

End Pipeline.

(** ** Sample instances

    Concrete stand-ins for the built-ins and for the registry, used to
    run the definitions on examples. *)

Module Sample.
Import Js Pipeline.

Definition Number_toString (q : Q) : string := "0".

Definition JSON_parse (text : string) : Exn JsValue :=
  if String.eqb text "{}" then ret (JObj [])
  else if String.eqb text "null" then ret JNull
  else throw (ThrownError "Unexpected token").

Definition createObjectURL (b : list byte) : string := "blob:optimized".

Definition TypeError_message : string :=
  "Cannot read properties of null (reading 'detail')".

Definition has_suffix (suffix s : string) : bool :=
  String.eqb suffix
    (String.substring (String.length s - String.length suffix)
       (String.length suffix) s).

Definition classify (p : string) (pre : list byte) : FileCategory :=
  if has_suffix ".css" p then CSS
  else if has_suffix ".scss" p then SCSS
  else if has_suffix ".js" p then JavaScript
  else Other.

Definition is_blank (b : byte) : bool :=
  Byte.eqb b x20 || Byte.eqb b x0a.

(** CSS loses its blanks, SCSS never compiles, JavaScript is doubled (a
    transform that grows its input), images are unsupported. *)
Definition optimize (b : list byte) (c : FileCategory)
  : list byte * Status * option string :=
  match c with
  | CSS => (List.filter (fun x => negb (is_blank x)) b, Success, None)
  | SCSS => ([], Failed, Some "compile error: unbalanced block")
  | JavaScript => ((b ++ b)%list, Success, None)
  | _ => (b, Skipped, None)
  end.

Definition serialize (entries : list (string * list byte)) : list byte :=
  flat_map (fun e => (list_byte_of_string e.1 ++ x00 :: e.2)%list) entries.

Definition cfg : Config := {| sizeCeiling := MAX_FILE_SIZE; sniffPrefix := 16 |}.

(** A tiny ceiling, to reach the size limit with a few bytes. *)
Definition tight : Config := {| sizeCeiling := 8; sniffPrefix := 16 |}.

Definition file_entry (p content : string) : ArchiveEntry :=
  {| entryPath := p; entryKind := RegularFile;
     entryBytes := list_byte_of_string content; entryType := None |}.

Definition dir_entry (p : string) : ArchiveEntry :=
  {| entryPath := p; entryKind := Directory; entryBytes := []; entryType := None |}.

(** The archive of the specification's worked example: one valid CSS
    file and one malformed SCSS file, under a directory entry. *)
Definition site_entries : list ArchiveEntry :=
  [dir_entry "css/";
   file_entry "css/a.css" "a { color: red; }  ";
   file_entry "css/b.scss" "a { color: red;";
   file_entry "README" "hello"].

Definition site : Archive := Listing site_entries.

(** An archive with an entry that climbs out of the root. *)
Definition traversal_entries : list ArchiveEntry :=
  [file_entry "index.html" "<p>";
   file_entry "../../etc/passwd" "root:x:0:0"].

Definition traversal : Archive := Listing traversal_entries.

(** Three schedules for the three files of [site]: tasks finishing out
    of order, in order, and cut short by the deadline. *)
Definition shuffled : list Event := [EvTaskDone 2; EvTaskDone 0; EvTaskDone 1].
Definition in_order : list Event := [EvTaskDone 0; EvTaskDone 1; EvTaskDone 2].
Definition interrupted : list Event := [EvTaskDone 1; EvDeadline; EvTaskDone 0].

Definition pk_blob : list byte := [x50; x4b; x03; x04; x14; x00].

Definition good_response : Dashboard.Response :=
  {| Dashboard.ok := true; Dashboard.json := None;
     Dashboard.blob := ret pk_blob; Dashboard.reportHeader := Some "{}" |}.

Definition zip_file : FileUpload.File :=
  {| FileUpload.name := "site.zip"; FileUpload.type := "application/zip";
     FileUpload.size := 61 |}.

Definition other_file : FileUpload.File :=
  {| FileUpload.name := "notes.zip"; FileUpload.type := "application/zip";
     FileUpload.size := 12 |}.

Definition html_response : Dashboard.Response :=
  {| Dashboard.ok := true; Dashboard.json := None;
     Dashboard.blob := ret (list_byte_of_string "<html>oops</html>");
     Dashboard.reportHeader := None |}.

(** A server that answers [site.zip] with a ZIP and anything else with
    an HTML page. *)
Definition fetch (file : FileUpload.File) : Exn Dashboard.Response :=
  if String.eqb (FileUpload.name file) "site.zip" then ret good_response
  else ret html_response.

(** A report with the field names of the specification. *)
Definition spec_named_report : JsValue :=
  JObj [("totalFiles", JNum 3); ("sizeReductionPercent", JNum 12.5);
        ("perCategoryStats", JObj []); ("failures", JArr [])].

(** A report with the field names the dashboard reads. *)
Definition stats_report (files : Q) (reduction : Q) : JsValue :=
  JObj [("stats", JObj [("total_files", JNum files);
                        ("size_reduction", JNum reduction)])].

End Sample.

(** ** Dashboard.tsx: the GitHub tab *)

Module Github.
Import Js Dashboard.

Definition setProgressMessage (m : string) (st : State) : State :=
  {| activeTab := activeTab st; githubUrl := githubUrl st;
     isProcessing := isProcessing st; progress := progress st;
     result := result st; error := error st; progressMessage := m |}.

(** What the component reads of the resolved [axios.get(..., {
    responseType: 'blob' })]. *)
Record AxiosResponse : Type := {
  (** [response.data] *)
  data : list byte;
  (** [response.headers['x-optimization-report']] *)
  optimizationReport : option string
}.

(** What the outer [catch] receives.  For an axios error, [detail] is
    [err.response?.data?.detail] when the error body carries one as a
    string, and [msg] is [err.message]. *)
Inductive Rejection : Type :=
| AxiosError (detail : option string) (msg : string)
| NotAxios (t : Thrown).

Section Handler.
(** [axios.get] on
    [http://localhost:8000/optimize/github?repo_url=${encodeURIComponent(githubUrl)}] *)
Variable axios_get : string -> AxiosResponse + Rejection.
Variable JSON_parse : string -> Exn JsValue.
Variable createObjectURL : list byte -> string.

(** [handleGithubOptimization]: the guard on [githubUrl], the five
    resets, the request, the inner [try] around the report, the outer
    [catch], and [finally]. *)
Definition handleGithubOptimization (st : State) : State :=
  if String.eqb (githubUrl st) "" then st
  else
    let st :=
      setProgressMessage "Starting GitHub optimization..."
        (setError None (setResult None (setProgress 0 (setIsProcessing true st)))) in
    let st :=
      match axios_get (githubUrl st) with
      | inl response =>
          let text :=
            match optimizationReport response with
            | Some h => if String.eqb h "" then "{}" else h
            | None => "{}"
            end in
          match JSON_parse text with
          | inl report =>
              setResult
                (Some {| download_url := createObjectURL (data response);
                         report := report;
                         message := "Optimization complete!" |}) st
          | inr _ =>
              setResult
                (Some {| download_url := createObjectURL (data response);
                         report := JNull;
                         message := "Optimization complete (no report available)" |})
                st
          end
      | inr (AxiosError detail msg) =>
          let errorMessage :=
            match detail with
            | Some d => if String.eqb d "" then msg else d
            | None => msg
            end in
          setError (Some errorMessage) st
      | inr (NotAxios (ThrownError msg)) => setError (Some msg) st
      | inr (NotAxios ThrownOther) => setError (Some "GitHub optimization failed") st
      end in
    setProgressMessage "Optimization complete!"
      (setProgress 100 (setIsProcessing false st)).

End Handler.

End Github.

(** ** The TypingAnimation component *)

Module TypingAnimation.

(** The two [useState] cells, the [index] of the effect's closure, and
    whether the interval is still set. *)
Record State : Type := {
  index : nat;
  displayText : string;
  isTyping : bool;
  timerSet : bool
}.

(** After mounting: [useState('')], [useState(true)], [let index = 0],
    [setInterval(..., 100)]. *)
Definition mounted : State :=
  {| index := 0; displayText := ""; isTyping := true; timerSet := true |}.

(** One firing of the interval callback; a cleared interval does not
    fire. *)
Definition tick (text : string) (st : State) : State :=
  if timerSet st then
    if (index st <? String.length text)%nat then
      {| index := S (index st);
         displayText := String.substring 0 (index st + 1) text;
         isTyping := isTyping st;
         timerSet := true |}
    else
      {| index := index st; displayText := displayText st;
         isTyping := false; timerSet := false |}
  else st.

Definition ticks (text : string) (n : nat) : State :=
  Nat.iter n (tick text) mounted.

(** What is rendered: the text, and the blinking cursor under
    [{isTyping && ...}]. *)
Definition render (st : State) : string * bool := (displayText st, isTyping st).

End TypingAnimation.

(** ** App.tsx and the Navigation bar *)

Module App.

Inductive View : Type := LandingPage | DashboardView | AIToolsView.

(** [renderContent]: the [switch] on [currentSection]. *)
Definition renderContent (currentSection : string) : View :=
  if String.eqb currentSection "home" then LandingPage
  else if String.eqb currentSection "app" then DashboardView
  else if String.eqb currentSection "dashboard" then DashboardView
  else if String.eqb currentSection "ai-tools" then AIToolsView
  else LandingPage.

(** [const isLandingPage = currentSection === 'home'] *)
Definition isLandingPage (currentSection : string) : bool :=
  String.eqb currentSection "home".

(** [handleNavigate]: the new [currentSection]. *)
Definition handleNavigate (section : string) (currentSection : string) : string :=
  section.

(** [Navigation]: [menuItems], as (label, href). *)
Definition menuItems (isLandingPage : bool) : list (string * string) :=
  if isLandingPage then
    [("Features", "#features"); ("Pricing", "#pricing"); ("About", "#about")]
  else
    [("Dashboard", "#dashboard"); ("AI Tools", "#ai-tools");
     ("Projects", "#projects")].

(** [href.replace('#', '')]: the first [#] is removed. *)
Fixpoint remove_first_hash (s : string) : string :=
  match s with
  | EmptyString => EmptyString
  | String c rest =>
      if Ascii.eqb c "#"%char then rest else String c (remove_first_hash rest)
  end.

(** The state of the page: [currentSection] of [App] and [isMenuOpen]
    of [Navigation]. *)
Record Page : Type := {
  currentSection : string;
  isMenuOpen : bool
}.

Definition opened : Page := {| currentSection := "home"; isMenuOpen := false |}.

(** The clicks the page reacts to: the logo, an item of the desktop or
    of the mobile menu, "Get Started", the mobile menu button, the two
    buttons of the dashboard that call [onNavigate], and the landing
    page's "Start Optimizing" and "Get Started Free", which both call
    [onNavigate('app')]. *)
Inductive Click : Type :=
| Logo
| DesktopItem (href : string)
| MobileItem (href : string)
| GetStarted
| MenuButton
| ViewAllProjects
| QuickActionAITools
| StartOptimizing.

Definition click (c : Click) (p : Page) : Page :=
  match c with
  | Logo =>
      {| currentSection := handleNavigate "home" (currentSection p);
         isMenuOpen := isMenuOpen p |}
  | DesktopItem href =>
      {| currentSection := handleNavigate (remove_first_hash href) (currentSection p);
         isMenuOpen := isMenuOpen p |}
  | MobileItem href =>
      {| currentSection := handleNavigate (remove_first_hash href) (currentSection p);
         isMenuOpen := false |}
  | GetStarted =>
      {| currentSection := handleNavigate "app" (currentSection p);
         isMenuOpen := isMenuOpen p |}
  | MenuButton =>
      {| currentSection := currentSection p; isMenuOpen := negb (isMenuOpen p) |}
  | ViewAllProjects =>
      {| currentSection := handleNavigate "projects" (currentSection p);
         isMenuOpen := isMenuOpen p |}
  | QuickActionAITools =>
      {| currentSection := handleNavigate "ai-tools" (currentSection p);
         isMenuOpen := isMenuOpen p |}
  | StartOptimizing =>
      {| currentSection := handleNavigate "app" (currentSection p);
         isMenuOpen := isMenuOpen p |}
  end.

(** Whether the page accepts the click.  The navigation bar is rendered
    from the section of the moment: its items come from the menu it
    shows, the mobile ones only while the menu is open, "Get Started"
    only with the landing menu.  The buttons inside a view are accepted
    at any time: [App] keeps the view it leaves mounted while it
    animates out ([AnimatePresence mode="wait"]), so a click on one of
    them can arrive after the section has changed. *)
Definition offered (c : Click) (p : Page) : bool :=
  let landing := isLandingPage (currentSection p) in
  match c with
  | Logo | MenuButton => true
  | DesktopItem href => bool_decide (href ∈ (menuItems landing).*2)
  | MobileItem href =>
      isMenuOpen p && bool_decide (href ∈ (menuItems landing).*2)
  | GetStarted => landing
  | ViewAllProjects | QuickActionAITools | StartOptimizing => true
  end.

(** The page after a sequence of clicks, each accepted when it is made;
    [None] if one is not. *)
Fixpoint browse (clicks : list Click) (p : Page) : option Page :=
  match clicks with
  | [] => Some p
  | c :: rest => if offered c p then browse rest (click c p) else None
  end.

(** The section names the components pass to [onNavigate]. *)
Definition sectionNames : list string :=
  ["home"; "app"; "dashboard"; "ai-tools"; "projects";
   "features"; "pricing"; "about"].

End App.

(** ** AITools.tsx *)

Module AITools.
Import Js.

Definition newline : ascii := "010"%char.
Definition backtick : ascii := "`"%char.

(** The class [[a-z]]. *)
Definition is_lower (c : ascii) : bool :=
  (97 <=? nat_of_ascii c)%nat && (nat_of_ascii c <=? 122)%nat.

(** The rest of the input after the longest run of [[a-z]]. *)
Fixpoint skip_lower (s : string) : string :=
  match s with
  | EmptyString => EmptyString
  | String c rest => if is_lower c then skip_lower rest else s
  end.

(** Every character is in [[a-z]]. *)
Fixpoint all_lower (s : string) : bool :=
  match s with
  | EmptyString => true
  | String c rest => is_lower c && all_lower rest
  end.

(** An opening fence: three backticks, a language tag, and what
    follows. *)
Definition fenced (tag rest : string) : string :=
  String backtick (String backtick (String backtick (tag ++ rest))).

(** [code.replace(/^```[a-z]*\n/, '')]: a match needs three backticks
    at the start and a newline right after the run of lower-case
    letters, which the greedy star takes whole. *)
Definition strip_opening_fence (code : string) : string :=
  match code with
  | String c1 (String c2 (String c3 rest)) =>
      if Ascii.eqb c1 backtick && Ascii.eqb c2 backtick && Ascii.eqb c3 backtick
      then match skip_lower rest with
           | String c body => if Ascii.eqb c newline then body else code
           | EmptyString => code
           end
      else code
  | _ => code
  end.

(** The closing fence: a newline and three backticks. *)
Definition closing_fence : string :=
  String newline (String backtick (String backtick (String backtick EmptyString))).

(** [.replace(/\n```$/, '')]: without the [m] flag [$] is the end of
    the input, so only a suffix can match. *)
Fixpoint strip_closing_fence (code : string) : string :=
  if String.eqb code closing_fence then EmptyString
  else match code with
       | EmptyString => EmptyString
       | String c rest => String c (strip_closing_fence rest)
       end.

(** [cleanConvertedCode] *)
Definition cleanConvertedCode (code : string) : string :=
  strip_closing_fence (strip_opening_fence code).

(** [!== undefined] *)
Definition defined (v : JsValue) : bool :=
  match v with
  | JUndefined => false
  | _ => true
  end.

(** The object [getChartData] returns, without its constant fields. *)
Record ChartData : Type := {
  labels : list string;
  scores : list JsValue;
  backgroundColor : list string;
  borderColor : list string
}.

(** [getChartData], on the [analysisResult] state ([null] is [JNull]).
    The filter on the labels ignores its element. *)
Definition getChartData (analysisResult : JsValue) : option ChartData :=
  if negb (truthy analysisResult) then None
  else if truthy (opt_chain analysisResult "error") then None
  else
    let performance_score := opt_chain analysisResult "performance_score" in
    let seo_score := opt_chain analysisResult "seo_score" in
    let accessibility_score := opt_chain analysisResult "accessibility_score" in
    let present :=
      List.filter defined [performance_score; seo_score; accessibility_score] in
    Some {| labels :=
              List.filter
                (fun _ => defined performance_score || defined seo_score
                          || defined accessibility_score)
                ["Performance"; "SEO"; "Accessibility"];
            scores := present;
            backgroundColor :=
              take (length present)
                ["rgba(54, 162, 235, 0.7)"; "rgba(255, 99, 132, 0.7)";
                 "rgba(75, 192, 192, 0.7)"];
            borderColor :=
              take (length present)
                ["rgba(54, 162, 235, 1)"; "rgba(255, 99, 132, 1)";
                 "rgba(75, 192, 192, 1)"] |}.

End AITools.

(** ** More sample data *)

Module MoreSamples.
Import Js.

(** A repository host that answers with an HTML page and a report
    header that is not JSON. *)
Definition axios_html (url : string) : Github.AxiosResponse + Github.Rejection :=
  inl {| Github.data := list_byte_of_string "<html>oops</html>";
         Github.optimizationReport := Some "not json" |}.

(** A request that fails with a network error. *)
Definition axios_down (url : string) : Github.AxiosResponse + Github.Rejection :=
  inr (Github.AxiosError None "Network Error").

Definition with_url (url : string) : Dashboard.State :=
  {| Dashboard.activeTab := "github"; Dashboard.githubUrl := url;
     Dashboard.isProcessing := false; Dashboard.progress := 0;
     Dashboard.result := None; Dashboard.error := None;
     Dashboard.progressMessage := "" |}.

(** A server that answers every upload with a ZIP whose report header
    is not JSON, and one that refuses with a JSON error body. *)
Definition fetch_bad_header (file : FileUpload.File) : Exn Dashboard.Response :=
  ret {| Dashboard.ok := true; Dashboard.json := None;
         Dashboard.blob := ret Sample.pk_blob;
         Dashboard.reportHeader := Some "not json" |}.

Definition fetch_no_header (file : FileUpload.File) : Exn Dashboard.Response :=
  ret {| Dashboard.ok := true; Dashboard.json := None;
         Dashboard.blob := ret Sample.pk_blob;
         Dashboard.reportHeader := None |}.

Definition fetch_refused (file : FileUpload.File) : Exn Dashboard.Response :=
  ret {| Dashboard.ok := false;
         Dashboard.json := Some (JObj [("detail", JStr "File too large")]);
         Dashboard.blob := ret Sample.pk_blob;
         Dashboard.reportHeader := None |}.

Definition three_files : list FileUpload.File :=
  [Sample.zip_file; Sample.other_file; Sample.zip_file].

(** An analysis that carries only an SEO score. *)
Definition seo_only : JsValue := JObj [("seo_score", JNum 80)].

End MoreSamples.

(* ===================================================================== *)
(** * Part II: theorems *)
(* ===================================================================== *)

(** ** The upload flow of the dashboard *)

Module DashboardFacts.
Import Js Dashboard.

Lemma verifyZipFile_spec (b : list byte) :
  verifyZipFile b = true ↔
  (4 ≤ length b)%nat ∧ b !! 0%nat = Some x50 ∧ b !! 1%nat = Some x4b.
Proof.
  unfold verifyZipFile.
  destruct b as [|b0 [|b1 [|b2 [|b3 rest]]]]; simpl;
    try (split; [discriminate | intros [Hlen _]; simpl in Hlen; lia]).
  rewrite andb_true_iff. split.
  - intros [H0 H1]. apply byte_dec_bl in H0, H1. subst.
    repeat split; simpl; lia.
  - intros (_ & H0 & H1). simplify_eq. done.
Qed.

(** A truthy report is not [null] or [undefined], so reading its [stats]
    does not raise. *)
Lemma truthy_has_stats (rep : JsValue) :
  truthy rep = true → get_prop rep "stats" = Some (opt_chain rep "stats").
Proof. by destruct rep. Qed.

Section Upload.
Variable fetch : FileUpload.File -> Exn Response.
Variable Number_toString : Q -> string.
Variable JSON_parse : string -> Exn JsValue.
Variable createObjectURL : list byte -> string.
Variable TypeError_message : string.

Local Abbreviation attempt :=
  (uploadAttempt fetch Number_toString JSON_parse createObjectURL
     TypeError_message).
Local Abbreviation upload :=
  (handleFileUpload fetch Number_toString JSON_parse createObjectURL
     TypeError_message).

(** The state after [handleFileUpload], read off the outcome of the
    [try] block. *)
Lemma upload_result file st :
  result (upload file st) =
    match attempt file with inl r => Some r | inr _ => None end.
Proof.
  unfold handleFileUpload.
  destruct (attempt file) as [r|[msg|]]; reflexivity.
Qed.

Lemma upload_error file st :
  error (upload file st) =
    match attempt file with
    | inl _ => None
    | inr (ThrownError msg) => Some msg
    | inr ThrownOther => Some "Upload failed"
    end.
Proof.
  unfold handleFileUpload.
  destruct (attempt file) as [r|[msg|]]; reflexivity.
Qed.

Lemma upload_settles file st : isProcessing (upload file st) = false.
Proof. reflexivity. Qed.

(** A successful attempt went through every gate of the [try] block. *)
Lemma attempt_success file r :
  attempt file = inl r →
  ∃ resp b,
    fetch file = inl resp ∧ ok resp = true ∧ blob resp = inl b ∧
    verifyZipFile b = true ∧ download_url r = createObjectURL b ∧
    message r = "Optimization complete!".
Proof.
  unfold uploadAttempt, bind, throw, ret.
  destruct (fetch file) as [resp|t]; [|discriminate].
  destruct (ok resp) eqn:Hok; simpl.
  2:{ destruct (get_prop _ _); discriminate. }
  destruct (blob resp) as [b|t] eqn:Hblob; [|discriminate].
  destruct (verifyZipFile b) eqn:Hzip; simpl; [|discriminate].
  intros H. exists resp, b.
  destruct (reportHeader resp) as [text|]; simpl in H.
  - destruct (String.eqb text ""); simpl in H.
    + by simplify_eq.
    + destruct (JSON_parse text); by simplify_eq.
  - by simplify_eq.
Qed.

Lemma attempt_invalid_zip file resp b :
  fetch file = inl resp →
  ok resp = true → blob resp = inl b → verifyZipFile b = false →
  attempt file = inr (ThrownError "Invalid ZIP file received from server").
Proof.
  intros Hfetch Hok Hblob Hzip. unfold uploadAttempt, bind, throw, ret.
  by rewrite Hfetch, Hok, Hblob, Hzip.
Qed.

(** The report of a successful upload is [JSON.parse] of the
    [X-Optimization-Report] header, [null] without one. *)
Lemma attempt_report file resp b :
  fetch file = inl resp →
  ok resp = true → blob resp = inl b → verifyZipFile b = true →
  attempt file =
    match reportHeader resp with
    | Some text =>
        if String.eqb text "" then
          inl {| download_url := createObjectURL b; report := JNull;
                 message := "Optimization complete!" |}
        else
          match JSON_parse text with
          | inl v => inl {| download_url := createObjectURL b; report := v;
                            message := "Optimization complete!" |}
          | inr t => inr t
          end
    | None => inl {| download_url := createObjectURL b; report := JNull;
                     message := "Optimization complete!" |}
    end.
Proof.
  intros Hfetch Hok Hblob Hzip. unfold uploadAttempt, bind, throw, ret.
  rewrite Hfetch, Hok, Hblob, Hzip. simpl.
  destruct (reportHeader resp) as [text|]; [|done].
  destruct (String.eqb text ""); simpl; [done|].
  by destruct (JSON_parse text).
Qed.

(** C9. In the upload flow a response blob becomes the result only if it
    has at least four bytes and starts with 0x50 0x4B; for a blob that
    fails this check [handleFileUpload] sets the error
    'Invalid ZIP file received from server', leaves the result null, and
    neither the results panel nor [handleDownload] offers a download. *)
Theorem upload_requires_pk_header (file : FileUpload.File) (st : State) :
  (∀ r, result (upload file st) = Some r →
     ∃ resp b, fetch file = inl resp ∧ blob resp = inl b ∧
       (4 ≤ length b)%nat ∧ b !! 0%nat = Some x50 ∧ b !! 1%nat = Some x4b) ∧
  (∀ resp b, fetch file = inl resp → ok resp = true → blob resp = inl b →
     ¬ ((4 ≤ length b)%nat ∧ b !! 0%nat = Some x50 ∧ b !! 1%nat = Some x4b) →
     error (upload file st) = Some "Invalid ZIP file received from server" ∧
     result (upload file st) = None ∧
     resultsDisplay (upload file st) = None ∧
     handleDownload (upload file st) = None).
Proof.
  split.
  - intros r. rewrite upload_result.
    destruct (attempt file) as [r'|t] eqn:Hatt; [|discriminate].
    intros _. apply attempt_success in Hatt as (resp & b & Hf & _ & Hb & Hzip & _).
    exists resp, b. apply verifyZipFile_spec in Hzip. tauto.
  - intros resp b Hfetch Hok Hblob Hbad.
    assert (verifyZipFile b = false) as Hzip.
    { destruct (verifyZipFile b) eqn:E; [|done].
      by apply verifyZipFile_spec in E. }
    pose proof (attempt_invalid_zip file resp b Hfetch Hok Hblob Hzip) as Hatt.
    assert (result (upload file st) = None) as Hres.
    { by rewrite upload_result, Hatt. }
    split; [by rewrite upload_error, Hatt|].
    split; [done|].
    unfold resultsDisplay, handleDownload. by rewrite Hres.
Qed.

(** [axios.get] of the GitHub tab, which delivers the report in the same
    header. *)
Variable axios_get : string -> Github.AxiosResponse + Github.Rejection.

(** C2 (as amended). The report reaches the caller as JSON text in the
    [X-Optimization-Report] header next to the archive, on the upload
    and on the GitHub path, and is stored as parsed.  Of a report the
    dashboard reads [stats.total_files] and [stats.size_reduction] and
    nothing else: two reports that agree on them are shown alike, and
    any other property of the report, [totalFiles],
    [sizeReductionPercent], per-category stats or a failures list among
    them, changes nothing.  For a truthy report the first cell is the
    value of [stats.total_files] and the second [stats.size_reduction]
    as a percentage; each is 'N/A' when its field is missing, null or
    zero; a falsy report has no cells. *)
Theorem report_channel_reads_stats :
  (∀ file resp b st text v,
     fetch file = inl resp →
     ok resp = true → blob resp = inl b → verifyZipFile b = true →
     reportHeader resp = Some text → text ≠ "" → JSON_parse text = inl v →
     result (upload file st) =
       Some {| download_url := createObjectURL b; report := v;
               message := "Optimization complete!" |}) ∧
  (∀ r1 r2,
     truthy r1 = truthy r2 →
     opt_chain (opt_chain r1 "stats") "total_files"
       = opt_chain (opt_chain r2 "stats") "total_files" →
     opt_chain (opt_chain r1 "stats") "size_reduction"
       = opt_chain (opt_chain r2 "stats") "size_reduction" →
     reportCells r1 = reportCells r2) ∧
  (∀ st response text v,
     githubUrl st ≠ "" → axios_get (githubUrl st) = inl response →
     Github.optimizationReport response = Some text → text ≠ "" →
     JSON_parse text = inl v →
     result (Github.handleGithubOptimization axios_get JSON_parse
               createObjectURL st) =
       Some {| download_url := createObjectURL (Github.data response);
               report := v; message := "Optimization complete!" |}) ∧
  (∀ rep,
     truthy rep = true →
     reportCells rep =
       Some (let files := opt_chain (opt_chain rep "stats") "total_files" in
             if truthy files then CellValue files else CellText "N/A",
             let reduction := opt_chain (opt_chain rep "stats") "size_reduction" in
             if truthy reduction then
               match reduction with
               | JNum q => CellPercent q
               | _ => CellTypeError
               end
             else CellText "N/A")) ∧
  (∀ rep, truthy rep = false → reportCells rep = None) ∧
  (∀ rep v,
     truthy rep = true →
     v = JUndefined ∨ v = JNull ∨ (∃ q, v = JNum q ∧ (q == 0)%Q) →
     (opt_chain (opt_chain rep "stats") "total_files" = v →
      fst <$> reportCells rep = Some (CellText "N/A")) ∧
     (opt_chain (opt_chain rep "stats") "size_reduction" = v →
      snd <$> reportCells rep = Some (CellText "N/A"))) ∧
  (∀ rep q,
     truthy rep = true → ¬ (q == 0)%Q →
     (opt_chain (opt_chain rep "stats") "total_files" = JNum q →
      fst <$> reportCells rep = Some (CellValue (JNum q))) ∧
     (opt_chain (opt_chain rep "stats") "size_reduction" = JNum q →
      snd <$> reportCells rep = Some (CellPercent q))) ∧
  (∀ props k v,
     k ≠ "stats" →
     reportCells (JObj ((k, v) :: props)) = reportCells (JObj props)).
Proof.
  assert (∀ rep, truthy rep = true →
            reportCells rep =
              Some (let files := opt_chain (opt_chain rep "stats") "total_files" in
                    if truthy files then CellValue files else CellText "N/A",
                    let reduction :=
                      opt_chain (opt_chain rep "stats") "size_reduction" in
                    if truthy reduction then
                      match reduction with
                      | JNum q => CellPercent q
                      | _ => CellTypeError
                      end
                    else CellText "N/A")) as Hcells.
  { intros rep Ht. unfold reportCells. rewrite Ht.
    unfold filesProcessedCell, sizeReductionCell.
    by rewrite (truthy_has_stats rep Ht). }
  assert (∀ v, v = JUndefined ∨ v = JNull ∨ (∃ q, v = JNum q ∧ (q == 0)%Q) →
               truthy v = false) as Hfalsy.
  { intros v [->|[->|(q & -> & Hq)]]; [done|done|].
    simpl. apply Qeq_bool_iff in Hq. by rewrite Hq. }
  assert (∀ q, ¬ (q == 0)%Q → truthy (JNum q) = true) as Htruthy.
  { intros q Hq. simpl. destruct (Qeq_bool q 0) eqn:E; [|done].
    by apply Qeq_bool_iff in E. }
  split; [|split; [|split; [|split; [|split; [|split; [|split]]]]]].
  - intros file resp b st text v Hfetch Hok Hblob Hzip Hhdr Htext Hparse.
    rewrite upload_result, (attempt_report file resp b Hfetch Hok Hblob Hzip), Hhdr.
    destruct (String.eqb text "") eqn:E.
    + apply String.eqb_eq in E. contradiction.
    + by rewrite Hparse.
  - intros r1 r2 Ht Hfiles Hsize. unfold reportCells. rewrite <- Ht.
    destruct (truthy r1) eqn:Ht1; [|done]. symmetry in Ht.
    unfold filesProcessedCell, sizeReductionCell.
    rewrite (truthy_has_stats r1 Ht1), (truthy_has_stats r2 Ht).
    by rewrite Hfiles, Hsize.
  - intros st response text v Hurl Hget Hhdr Htext Hparse.
    unfold Github.handleGithubOptimization.
    destruct (String.eqb (githubUrl st) "") eqn:E.
    { by apply String.eqb_eq in E. }
    simpl. rewrite Hget, Hhdr.
    destruct (String.eqb text "") eqn:E'.
    { by apply String.eqb_eq in E'. }
    by rewrite Hparse.
  - exact Hcells.
  - intros rep Ht. unfold reportCells. by rewrite Ht.
  - intros rep v Ht Hv. rewrite (Hcells rep Ht). cbv zeta.
    split; intros ->; simpl; by rewrite (Hfalsy v Hv).
  - intros rep q Ht Hq. rewrite (Hcells rep Ht). cbv zeta.
    split; intros ->; cbn [fmap option_fmap option_map fst snd];
      by rewrite (Htruthy q Hq).
  - intros props k v Hk.
    assert (get_prop (JObj ((k, v) :: props)) "stats"
            = get_prop (JObj props) "stats") as Hstats.
    { cbn -[String.eqb]. destruct (String.eqb "stats" k) eqn:E; [|done].
      apply String.eqb_eq in E. by subst. }
    unfold reportCells, filesProcessedCell, sizeReductionCell.
    by rewrite Hstats.
Qed.

(** A drop on the upload tab starts at most one upload, for the first
    accepted file. *)
Lemma uploadTabDrop_once useDropzone uploadedFiles dropped st :
  uploadTabDrop fetch Number_toString JSON_parse createObjectURL
    TypeError_message useDropzone uploadedFiles dropped st =
  match useDropzone FileUpload.dropzoneOptions dropped with
  | [] => st
  | file :: _ => upload file st
  end.
Proof.
  unfold uploadTabDrop, FileUpload.handleDropEvent.
  by destruct (useDropzone _ dropped).
Qed.

End Upload.

Example verifyZipFile_examples :
  verifyZipFile Sample.pk_blob = true ∧
  verifyZipFile [x50; x4b; x03] = false ∧
  verifyZipFile (list_byte_of_string "<html>oops</html>") = false.
Proof. repeat split. Qed.

(** A ZIP reply with the report header ["{}"]: the panel offers the
    download and shows 'N/A' twice. *)
Example upload_of_zip :
  resultsDisplay
    (handleFileUpload Sample.fetch Sample.Number_toString Sample.JSON_parse
       Sample.createObjectURL Sample.TypeError_message
       Sample.zip_file initialState)
  = Some {| panelMessage := "Optimization complete!";
            panelCells := Some (CellText "N/A", CellText "N/A");
            panelDownload := true |}.
Proof. reflexivity. Qed.

Example report_cells_of_stats :
  reportCells (Sample.stats_report 3 12.5)
  = Some (CellValue (JNum 3), CellPercent 12.5).
Proof. reflexivity. Qed.

(** The upload theorem at a server reply that is an HTML page. *)
Lemma upload_requires_pk_header_witness :
  Dashboard.error
    (handleFileUpload Sample.fetch Sample.Number_toString Sample.JSON_parse
       Sample.createObjectURL Sample.TypeError_message
       Sample.other_file initialState)
  = Some "Invalid ZIP file received from server".
Proof.
  refine (proj1 (proj2 (upload_requires_pk_header Sample.fetch
            Sample.Number_toString Sample.JSON_parse Sample.createObjectURL
            Sample.TypeError_message Sample.other_file initialState)
          Sample.html_response _ eq_refl eq_refl eq_refl _)).
  intros (_ & H & _). vm_compute in H. discriminate.
Defined.

(** C2, the claim as stated fails: a report that carries the
    specification's field names shows 'N/A' in both cells, and two
    reports that agree on every one of those names are shown
    differently. *)
Lemma spec_field_names_not_read :
  reportCells Sample.spec_named_report = Some (CellText "N/A", CellText "N/A") ∧
  ¬ (∀ r1 r2 : JsValue,
       (∀ k, k ∈ specFieldNames → get_prop r1 k = get_prop r2 k) →
       reportCells r1 = reportCells r2).
Proof.
  split; [reflexivity|].
  intros H. specialize (H (Sample.stats_report 3 12.5) (JObj [])).
  assert (reportCells (Sample.stats_report 3 12.5) = reportCells (JObj [])) as E.
  { apply H. intros k Hk. unfold specFieldNames in Hk.
    repeat (apply elem_of_cons in Hk as [->|Hk]; [reflexivity|]).
    by apply elem_of_nil in Hk. }
  vm_compute in E. discriminate.
Qed.

(** The amended statement at two reports that differ outside [stats]. *)
Lemma report_channel_reads_stats_witness :
  reportCells (Sample.stats_report 3 12.5)
  = reportCells (JObj [("totalFiles", JNum 99);
                       ("stats", JObj [("size_reduction", JNum 12.5);
                                       ("total_files", JNum 3)])]).
Proof.
  apply (proj1 (proj2 (report_channel_reads_stats Sample.fetch
                         Sample.Number_toString Sample.JSON_parse
                         Sample.createObjectURL Sample.TypeError_message
                         MoreSamples.axios_html)));
    reflexivity.
Defined.

End DashboardFacts.

(** ** The FileUpload component *)

Module FileUploadFacts.
Import FileUpload.

Lemma onDrop_calls (uploadedFiles acceptedFiles : list File) :
  (onDrop uploadedFiles acceptedFiles).2 = take 1 acceptedFiles.
Proof. by destruct acceptedFiles. Qed.

(** C10. For every drop the component calls [onFileUpload] at most once,
    with the first accepted file, and not at all when no file is
    accepted; its dropzone is configured for the two ZIP MIME types with
    the extension .zip, a maximum size of 100 * 1024 * 1024 bytes, and
    single selection. *)
Theorem onDrop_forwards_first_zip
    (useDropzone : DropzoneOptions → list File → list File)
    (uploadedFiles dropped : list File) :
  let acceptedFiles := useDropzone dropzoneOptions dropped in
  let calls := (handleDropEvent useDropzone uploadedFiles dropped).2 in
  calls = match acceptedFiles with [] => [] | file :: _ => [file] end ∧
  (length calls ≤ 1)%nat ∧
  (handleDropEvent useDropzone uploadedFiles dropped).1
    = (uploadedFiles ++ calls)%list ∧
  accept dropzoneOptions
    = [("application/zip", [".zip"]); ("application/x-zip-compressed", [".zip"])] ∧
  maxSize dropzoneOptions = (100 * 1024 * 1024)%N ∧
  maxSize dropzoneOptions = 104857600%N ∧
  multiple dropzoneOptions = false.
Proof.
  unfold handleDropEvent. simpl.
  destruct (useDropzone dropzoneOptions dropped) as [|file rest]; simpl;
    rewrite ?app_nil_r; repeat split; lia.
Qed.

End FileUploadFacts.

(** ** The pipeline *)

Module PipelineFacts.
Import Pipeline.

(** *** Archive Reader *)

Lemma sumN_app {A} (f : A → N) (l k : list A) :
  sumN f (l ++ k) = (sumN f l + sumN f k)%N.
Proof. induction l as [|x l IH]; simpl; [done|]. rewrite IH. lia. Qed.

Lemma source_files_bytes (entries : list ArchiveEntry) :
  (total_bytes (source_files entries) ≤ cumulative_size entries)%N.
Proof.
  unfold total_bytes, cumulative_size, source_files.
  induction entries as [|e entries IH]; csimpl; [done|].
  destruct (entryKind e); csimpl; lia.
Qed.

Lemma source_files_path (entries : list ArchiveEntry) (f : SourceFile) :
  f ∈ source_files entries → ∃ e, e ∈ entries ∧ entryPath e = path f.
Proof.
  unfold source_files. rewrite list_elem_of_omap.
  intros (e & He & Hf). exists e. split; [done|].
  destruct (entryKind e); by simplify_eq.
Qed.

(** What a successful read tells about the archive. *)
Lemma read_archive_inl (cfg : Config) (a : Archive) (files : list SourceFile) :
  read_archive cfg a = inl files →
  ∃ entries,
    a = Listing entries ∧
    (cumulative_size entries ≤ sizeCeiling cfg)%N ∧
    (∀ e, e ∈ entries → escapes_root (entryPath e) = false) ∧
    files = source_files entries ∧ files ≠ [].
Proof.
  destruct a as [|entries]; simpl; [discriminate|].
  destruct (N.ltb_spec (sizeCeiling cfg) (cumulative_size entries)); [discriminate|].
  destruct (existsb _ entries) eqn:Hex; [discriminate|].
  destruct (source_files entries) as [|f fs] eqn:Hfiles; [discriminate|].
  intros [= <-]. exists entries. repeat split; try done.
  intros e He. destruct (escapes_root (entryPath e)) eqn:Hesc; [|done].
  assert (existsb (λ e, escapes_root (entryPath e)) entries = true) as Habs.
  { apply existsb_exists. exists e. split; [by apply list_elem_of_In|done]. }
  congruence.
Qed.

Lemma read_archive_too_large (cfg : Config) (entries : list ArchiveEntry) :
  (sizeCeiling cfg < cumulative_size entries)%N →
  read_archive cfg (Listing entries) = inr ArchiveTooLarge.
Proof.
  intros H. simpl.
  by destruct (N.ltb_spec (sizeCeiling cfg) (cumulative_size entries)); [|lia].
Qed.

Lemma read_archive_unsafe (cfg : Config) (entries : list ArchiveEntry) e :
  (cumulative_size entries ≤ sizeCeiling cfg)%N →
  e ∈ entries → escapes_root (entryPath e) = true →
  read_archive cfg (Listing entries) = inr UnsafePath.
Proof.
  intros Hsize He Hesc. simpl.
  destruct (N.ltb_spec (sizeCeiling cfg) (cumulative_size entries)); [lia|].
  assert (existsb (λ e, escapes_root (entryPath e)) entries = true) as ->; [|done].
  apply existsb_exists. exists e. split; [by apply list_elem_of_In|done].
Qed.

(** *** Stats Aggregator *)

Lemma reduction_percent_eq (original optimized : N) :
  reduction_percent original optimized =
    Some (if (original =? 0)%N then 0%Q
          else (inject_Z (Z.of_N original - Z.of_N optimized)
                / inject_Z (Z.of_N original) * 100)%Q).
Proof.
  unfold reduction_percent.
  destruct (N.eqb_spec original 0) as [|Hne]; [done|].
  unfold checked_div.
  assert (Qeq_bool (inject_Z (Z.of_N original)) 0 = false) as ->; [|done].
  unfold Qeq_bool, inject_Z; simpl. apply Z.eqb_neq. lia.
Qed.

(** The percentage lies in [0, 100] when the batch did not grow, and is
    negative, not clamped, when it grew. *)
Lemma reduction_percent_sign (original optimized : N) (q : Q) :
  reduction_percent original optimized = Some q →
  ((optimized ≤ original)%N → (0 <= q)%Q ∧ (q <= 100)%Q) ∧
  ((original ≤ optimized)%N → (q <= 0)%Q) ∧
  ((0 < original < optimized)%N → (q < 0)%Q).
Proof.
  rewrite reduction_percent_eq. intros [= <-].
  destruct original as [|o]; simpl.
  { repeat split; try done; lia. }
  unfold Qle, Qlt, Qdiv, Qmult, Qinv, inject_Z; simpl.
  destruct optimized as [|p]; simpl; repeat split; intros; lia.
Qed.

Lemma sumN_le {A} (f g : A → N) (l : list A) :
  (∀ x, x ∈ l → (f x ≤ g x)%N) → (sumN f l ≤ sumN g l)%N.
Proof.
  induction l as [|x l IH]; intros H; simpl; [done|].
  assert (f x ≤ g x)%N by (apply H; left).
  assert (sumN f l ≤ sumN g l)%N by (apply IH; intros; apply H; by right).
  lia.
Qed.

Lemma sumN_fmap {A B} (f : B → N) (g : A → B) (l : list A) :
  sumN f (g <$> l) = sumN (f ∘ g) l.
Proof. induction l as [|x l IH]; csimpl; [done|]. by rewrite IH. Qed.

Lemma fold_record_counts (outcomes : list TransformOutcome) (t : Totals) :
  let t' := fold_left record_outcome outcomes t in
  seen t' = (seen t + N.of_nat (length outcomes))%N ∧
  (succeeded t' + failed t' + filesSkipped outcomes
   = succeeded t + failed t + N.of_nat (length outcomes))%N ∧
  bytesIn t' = (bytesIn t + sumN originalSize outcomes)%N ∧
  bytesOut t' = (bytesOut t + sumN optimizedSize outcomes)%N.
Proof.
  revert t. induction outcomes as [|o outcomes IH]; intros t; simpl.
  { unfold filesSkipped; simpl. repeat split; lia. }
  destruct (IH (record_outcome t o)) as (Hseen & Hcount & Hin & Hout).
  simpl in *. rewrite Hseen, Hin, Hout.
  repeat split; try lia.
  unfold filesSkipped in *. simpl.
  destruct (status o) eqn:Hst; simpl in *;
    repeat case_decide; try congruence; lia.
Qed.

(** The failures list holds the failed outcomes, in input order. *)
Lemma fold_record_failures (outcomes : list TransformOutcome) (t : Totals) :
  failedSoFar (fold_left record_outcome outcomes t) =
    (failedSoFar t ++
     ((λ o, {| failurePath := outcomePath o; failureDetail := errorDetail o |})
        <$> List.filter (λ o, bool_decide (status o = Failed)) outcomes))%list.
Proof.
  revert t. induction outcomes as [|o outcomes IH]; intros t; simpl.
  { by rewrite app_nil_r. }
  rewrite IH. simpl. case_decide as Hst.
  - rewrite bool_decide_true by done. simpl. by rewrite <- app_assoc.
  - by rewrite bool_decide_false by done.
Qed.

(** The aggregator never faults, and its report is the one-pass fold. *)
Lemma aggregate_report (outcomes : list TransformOutcome) :
  ∃ rep,
    aggregate outcomes = Some rep ∧
    totalFiles rep = N.of_nat (length outcomes) ∧
    (filesOptimized rep + filesFailed rep + filesSkipped outcomes
     = totalFiles rep)%N ∧
    totalOriginalBytes rep = sumN originalSize outcomes ∧
    totalOptimizedBytes rep = sumN optimizedSize outcomes ∧
    sizeReductionPercent rep =
      (if (totalOriginalBytes rep =? 0)%N then 0%Q
       else (inject_Z (Z.of_N (totalOriginalBytes rep)
                       - Z.of_N (totalOptimizedBytes rep))
             / inject_Z (Z.of_N (totalOriginalBytes rep)) * 100)%Q) ∧
    failures rep =
      (λ o, {| failurePath := outcomePath o; failureDetail := errorDetail o |})
        <$> List.filter (λ o, bool_decide (status o = Failed)) outcomes.
Proof.
  unfold aggregate, finalize, tally.
  rewrite reduction_percent_eq. simpl. eexists. split; [reflexivity|]. simpl.
  destruct (fold_record_counts outcomes noTotals) as (Hseen & Hcount & Hin & Hout).
  simpl in *. rewrite fold_record_failures. simpl.
  repeat split; try done; lia.
Qed.

(** *** Orchestrator and Writer *)

Section Batch.
Variable classify : string → list byte → FileCategory.
Variable optimize : list byte → FileCategory → list byte * Status * option string.
Variable serialize : list (string * list byte) → list byte.
Variable cfg : Config.

Local Abbreviation task := (run_transform classify optimize cfg).
Local Abbreviation table := (outcome_table classify optimize cfg).
Local Abbreviation ok_state := (state_ok classify optimize cfg).
Local Abbreviation ok_collected := (collected_ok classify optimize cfg).
Local Abbreviation react := (step classify optimize cfg).
Local Abbreviation batch := (run_batch classify optimize cfg).
Local Abbreviation pipeline := (optimize_archive classify optimize serialize cfg).

Lemma table_elem (files : list SourceFile) (i : nat) (o : TransformOutcome) :
  (i, o) ∈ table files ↔ ∃ f, files !! i = Some f ∧ o = task f.
Proof.
  unfold outcome_table. rewrite elem_of_lookup_imap. split.
  - intros (j & f & [= -> ->] & Hf). eauto.
  - intros (f & Hf & ->). eauto.
Qed.

Lemma table_length (files : list SourceFile) :
  length (table files) = length files.
Proof. apply length_imap. Qed.

Lemma table_outcomes (files : list SourceFile) :
  (table files).*2 = task <$> files.
Proof.
  unfold outcome_table. rewrite fmap_imap.
  apply list_eq. intros i. by rewrite list_lookup_imap, list_lookup_fmap.
Qed.

Lemma sorted_from (k : nat) (files : list SourceFile) :
  StronglySorted earlier (imap (λ i f, ((k + i)%nat, task f)) files).
Proof.
  revert k. induction files as [|f files IH]; intros k; simpl; constructor.
  - rewrite (imap_ext _ (λ i f, ((S k + i)%nat, task f))); [apply IH|].
    intros i x _. simpl. f_equal. lia.
  - apply Forall_forall. intros x Hx.
    apply elem_of_lookup_imap in Hx as (i & y & -> & _).
    unfold earlier; simpl. lia.
Qed.

Lemma table_sorted (files : list SourceFile) :
  StronglySorted earlier (table files).
Proof. apply (sorted_from 0). Qed.

Lemma collected_le (files : list SourceFile) collected :
  ok_collected files collected → (length collected ≤ length files)%nat.
Proof.
  intros [Hnodup Hin]. rewrite <- table_length.
  apply submseteq_length, NoDup_submseteq; [|done].
  by apply NoDup_fmap_1 in Hnodup.
Qed.

(** A full collection, put in archive order, is the table itself. *)
Lemma full_collection_sorted (files : list SourceFile) collected :
  ok_collected files collected → length collected = length files →
  by_archive_order collected = table files.
Proof.
  intros [Hnodup Hin] Hlen. unfold by_archive_order.
  assert (collected ≡ₚ table files) as Hperm.
  { apply submseteq_length_Permutation.
    - apply NoDup_submseteq; [by apply NoDup_fmap_1 in Hnodup|done].
    - rewrite table_length. lia. }
  apply (StronglySorted_unique_strong earlier).
  - intros [i o1] [j o2] H1 H2 Hle Hge.
    rewrite merge_sort_Permutation in H1. apply Hin in H1.
    unfold earlier in *; simpl in *. assert (i = j) as -> by lia.
    apply table_elem in H1 as (f1 & Hf1 & ->).
    apply table_elem in H2 as (f2 & Hf2 & ->). congruence.
  - apply StronglySorted_merge_sort; apply _.
  - apply table_sorted.
  - by rewrite merge_sort_Permutation.
Qed.

Lemma step_ok (files : list SourceFile) (st : BatchState) (ev : Event) :
  ok_state files st → ok_state files (react files st ev).
Proof.
  destruct st as [|collected|collected|e], ev as [|i|];
    cbn -[Nat.eqb length]; try done.
  - intros _. destruct (_ <? _)%N; [done|].
    destruct files; simpl; (split; [split; [constructor|]|]); try lia;
      intros x Hx; by apply elem_of_nil in Hx.
  - intros [Hok Hlt].
    destruct (files !! i) as [f|] eqn:Hf; [|done].
    case_bool_decide as Hi; [done|].
    assert (ok_collected files ((i, task f) :: collected)) as Hok'.
    { destruct Hok as [Hnodup Hin]. split.
      - simpl. by constructor.
      - intros x [->|Hx]%elem_of_cons; [|by apply Hin].
        apply table_elem. eauto. }
    pose proof (collected_le _ _ Hok') as Hle.
    destruct (Nat.eqb_spec (length ((i, task f) :: collected)) (length files));
      (split; [done|lia]).
Qed.

Lemma fold_ok (files : list SourceFile) (events : list Event) (st : BatchState) :
  ok_state files st → ok_state files (fold_left (react files) events st).
Proof.
  revert st. induction events as [|ev events IH]; intros st Hst; simpl; [done|].
  by apply IH, step_ok.
Qed.

Lemma run_batch_ok (files : list SourceFile) (events : list Event) :
  ok_state files (batch files events).
Proof. by apply fold_ok. Qed.

(** A completed batch holds the outcome table, up to order. *)
Lemma completed_table (files : list SourceFile) (events : list Event) collected :
  batch files events = Completed collected →
  collected ≡ₚ table files ∧ by_archive_order collected = table files.
Proof.
  intros Hrun. pose proof (run_batch_ok files events) as Hok.
  rewrite Hrun in Hok. destruct Hok as [Hok Hlen]. split.
  - rewrite <- (full_collection_sorted files collected Hok Hlen).
    unfold by_archive_order. by rewrite merge_sort_Permutation.
  - by apply full_collection_sorted.
Qed.

Lemma task_path (f : SourceFile) : outcomePath (task f) = path f.
Proof.
  unfold run_transform.
  by destruct (classify _ _); try destruct (optimize _ _) as [[? ?] ?].
Qed.

Lemma task_sizes (f : SourceFile) :
  originalSize (task f) = N.of_nat (length (bytes f)) ∧
  optimizedSize (task f) = N.of_nat (length (outputBytes (task f))).
Proof.
  unfold run_transform.
  by destruct (classify _ _); try destruct (optimize _ _) as [[? ?] ?].
Qed.

(** Only a [Success] replaces the bytes of a file. *)
Lemma task_passthrough (f : SourceFile) :
  status (task f) ≠ Success → outputBytes (task f) = bytes f.
Proof.
  unfold run_transform.
  destruct (classify _ _); try destruct (optimize _ _) as [[? []] ?];
    simpl; congruence.
Qed.

Lemma ended_stays (files : list SourceFile) (events : list Event) (st : BatchState) :
  (∃ c, st = Completed c) ∨ (∃ e, st = Aborted e) →
  fold_left (react files) events st = st.
Proof.
  intros Hst. induction events as [|ev events IH]; simpl; [done|].
  by destruct Hst as [[c ->]|[e ->]]; destruct ev; simpl; apply IH.
Qed.

Lemma task_never_aborts (files : list SourceFile) collected (i : nat) e :
  react files (Running collected) (EvTaskDone i) ≠ Aborted e.
Proof.
  cbn -[Nat.eqb length]. destruct (files !! i); [|done].
  case_bool_decide; [done|]. by destruct (_ =? _)%nat.
Qed.

(** Why a batch can be aborted: the size limit at its start, or the
    deadline. *)
Lemma abort_cause (files : list SourceFile) (events : list Event)
    (st : BatchState) e :
  fold_left (react files) events st = Aborted e →
  st = Aborted e ∨
  (e = ArchiveTooLarge ∧ (sizeCeiling cfg < total_bytes files)%N ∧ st = Pending) ∨
  (e = BatchTimeout ∧ EvDeadline ∈ events).
Proof.
  revert st. induction events as [|ev events IH]; intros st; simpl; [auto|].
  intros H. apply IH in H as [H|[(-> & Hsize & H)|(-> & Hin)]].
  - destruct st as [|collected|collected|e'], ev as [|i|];
      cbn -[Nat.eqb length] in H; try done; try (by left).
    + destruct (N.ltb_spec (sizeCeiling cfg) (total_bytes files)).
      * simplify_eq. right; left. done.
      * by destruct files.
    + simplify_eq. right; right. split; [done|left].
    + by apply task_never_aborts in H.
    + simplify_eq. right; right. split; [done|left].
  - right; left. repeat split; try done.
    destruct st as [|collected|collected|e'], ev as [|i|];
      cbn -[Nat.eqb length] in H; try done;
      repeat match type of H with
             | context [if ?b then _ else _] => destruct b
             | context [match ?x with _ => _ end] => destruct x
             end; done.
  - right; right. split; [done|by right].
Qed.

(** One event that is not the deadline keeps a running batch running, or
    completes it; nothing collected is lost and the task that finished
    is collected. *)
Lemma step_running (files : list SourceFile) collected (ev : Event) :
  ev ≠ EvDeadline →
  (∃ c', react files (Running collected) ev = Completed c') ∨
  (∃ c', react files (Running collected) ev = Running c' ∧
         (∀ i, i ∈ collected.*1 → i ∈ c'.*1) ∧
         (∀ i, ev = EvTaskDone i → (i < length files)%nat → i ∈ c'.*1)).
Proof.
  intros Hev. destruct ev as [|j|]; [| |done]; cbn -[Nat.eqb length].
  - right. exists collected. by repeat split.
  - destruct (files !! j) as [f|] eqn:Hf.
    + case_bool_decide as Hj.
      * right. exists collected. repeat split; [done|]. by intros i [= ->] _.
      * destruct (_ =? _)%nat; [left; eauto|].
        right. eexists. split; [done|]. split.
        -- intros i Hi. simpl. by right.
        -- intros i [= ->] _. simpl. left.
    + right. exists collected. repeat split; [done|].
      intros i [= ->] Hlt. apply lookup_ge_None in Hf. lia.
Qed.

Lemma running_progress (files : list SourceFile) (events : list Event) collected :
  ok_state files (Running collected) → EvDeadline ∉ events →
  (∃ c', fold_left (react files) events (Running collected) = Completed c') ∨
  (∃ c', fold_left (react files) events (Running collected) = Running c' ∧
         ∀ i, EvTaskDone i ∈ events → (i < length files)%nat → i ∈ c'.*1).
Proof.
  revert collected.
  induction events as [|ev events IH]; intros collected Hok Hdl; cbn [fold_left].
  { right. exists collected. split; [done|]. intros i Hi. by apply elem_of_nil in Hi. }
  apply not_elem_of_cons in Hdl as [Hev Hdl].
  pose proof (step_ok files (Running collected) ev Hok) as Hok'.
  destruct (step_running files collected ev) as [[c' Hc']|(c' & Hc' & Hkeep & Hnew)];
    [done| |].
  - left. exists c'. rewrite Hc'. apply ended_stays. eauto.
  - rewrite Hc' in Hok' |- *.
    assert (∀ i, i ∈ c'.*1 → ∀ c'',
              fold_left (react files) events (Running c') = Running c'' →
              i ∈ c''.*1) as Hmono.
    { clear -Hdl. revert c'.
      induction events as [|ev' events IH']; intros c' i Hi c''; cbn [fold_left].
      - by intros [= <-].
      - apply not_elem_of_cons in Hdl as [Hev' Hdl].
        destruct (step_running files c' ev') as [[d Hd]|(d & Hd & Hkeep' & _)];
          [done| |]; rewrite Hd.
        + rewrite ended_stays by eauto. discriminate.
        + apply IH'; auto. }
    destruct (IH c' Hok' Hdl) as [Hdone|(c'' & Hc'' & Hall)]; [by left|].
    right. exists c''. split; [done|].
    intros i [Hi|Hi]%elem_of_cons Hlt; [|by apply Hall].
    eapply Hmono; [|done]. by apply Hnew.
Qed.

(** A schedule without a deadline in which every task finishes completes
    the batch, whatever the order and whatever the outcomes. *)
Lemma complete_schedule (files : list SourceFile) (events : list Event) :
  (total_bytes files ≤ sizeCeiling cfg)%N →
  EvDeadline ∉ events →
  (∀ i, (i < length files)%nat → EvTaskDone i ∈ events) →
  ∃ collected, batch files (EvStart :: events) = Completed collected.
Proof.
  intros Hsize Hdl Hall. unfold run_batch. cbn -[Nat.eqb length].
  destruct (N.ltb_spec (sizeCeiling cfg) (total_bytes files)); [lia|].
  destruct files as [|f files].
  { exists []. apply ended_stays. eauto. }
  set (fs := f :: files) in *.
  assert (ok_state fs (Running [])) as Hok.
  { split; [split; [constructor|]|simpl; lia].
    intros x Hx. by apply elem_of_nil in Hx. }
  destruct (running_progress fs events [] Hok Hdl) as [Hdone|(c' & Hc' & Hin)];
    [done|exfalso].
  pose proof (fold_ok fs events _ Hok) as Hok'. rewrite Hc' in Hok'.
  destruct Hok' as [_ Hlt].
  assert (seq 0 (length fs) ⊆+ c'.*1) as Hsub.
  { apply NoDup_submseteq; [apply NoDup_seq|].
    intros i Hi. apply elem_of_seq in Hi. apply Hin; [apply Hall|]; lia. }
  apply submseteq_length in Hsub.
  rewrite length_seq, length_fmap in Hsub. lia.
Qed.

(** What a run delivers, whatever its schedule: the files of the archive
    in listing order, each with the bytes its task emitted, and the
    report folded from the outcome of each file in that order. *)
Lemma delivered_canonical (a : Archive) (events : list Event)
    entries payload rep :
  pipeline a events = Delivered entries payload rep →
  ∃ files collected,
    read_archive cfg a = inl files ∧
    batch files (EvStart :: events) = Completed collected ∧
    collected ≡ₚ table files ∧
    entries = (λ f, (path f, outputBytes (task f))) <$> files ∧
    payload = serialize entries ∧
    aggregate (task <$> files) = Some rep.
Proof.
  unfold optimize_archive.
  destruct (read_archive cfg a) as [files|e] eqn:Hread; [|discriminate].
  destruct (batch files (EvStart :: events)) as [|c|c|e] eqn:Hrun;
    try discriminate.
  apply completed_table in Hrun as Htab. destruct Htab as [Hperm Hsorted].
  unfold conclude, write_entries. rewrite Hsorted, table_outcomes.
  destruct (aggregate (task <$> files)) as [rep'|] eqn:Hagg; [|discriminate].
  intros [= <- <- <-]. exists files, c. repeat split; try done.
  change (λ p : nat * TransformOutcome, (outcomePath p.2, outputBytes p.2))
    with ((λ o, (outcomePath o, outputBytes o)) ∘ (snd : nat * TransformOutcome → _)).
  rewrite list_fmap_compose, table_outcomes, <- list_fmap_compose.
  apply list_fmap_ext. intros i f _. simpl. by rewrite task_path.
Qed.

(** C1. For every valid input archive processed to completion, every
    SourceFile has exactly one TransformOutcome (the collected outcomes
    are the outcome table up to order), the report satisfies
    filesOptimized + filesFailed + filesSkipped = totalFiles, and the
    output archive has one entry per input SourceFile path, in order, so
    its entry count is totalFiles; a failed file is passed through with
    its original bytes. *)
Theorem completed_batch_accounts_for_every_file
    (a : Archive) (events : list Event) (files : list SourceFile)
    entries payload rep :
  read_archive cfg a = inl files →
  pipeline a events = Delivered entries payload rep →
  (∃ collected,
     batch files (EvStart :: events) = Completed collected ∧
     collected ≡ₚ table files) ∧
  aggregate (task <$> files) = Some rep ∧
  (filesOptimized rep + filesFailed rep + filesSkipped (task <$> files)
   = totalFiles rep)%N ∧
  totalFiles rep = N.of_nat (length files) ∧
  entries.*1 = path <$> files ∧
  N.of_nat (length entries) = totalFiles rep ∧
  (∀ i f, files !! i = Some f → status (task f) = Failed →
          entries !! i = Some (path f, bytes f)).
Proof.
  intros Hread Hrun.
  apply delivered_canonical in Hrun
    as (files' & collected & Hread' & Hbatch & Hperm & -> & -> & Hagg).
  assert (files' = files) as -> by congruence.
  destruct (aggregate_report (task <$> files))
    as (rep' & Hagg' & Htotal & Hcount & _).
  assert (rep' = rep) as -> by congruence.
  rewrite length_fmap in Htotal.
  split; [eauto|]. split; [done|]. split; [done|]. split; [done|].
  split; [|split].
  - rewrite <- list_fmap_compose. by apply list_fmap_ext.
  - by rewrite length_fmap.
  - intros i f Hf Hfailed. rewrite list_lookup_fmap, Hf. simpl.
    rewrite task_passthrough; [done|]. rewrite Hfailed. discriminate.
Qed.

(** C3. For every completed batch the aggregator computes
    sizeReductionPercent = (totalOriginalBytes - totalOptimizedBytes) /
    totalOriginalBytes * 100 over the summed sizes of the outcomes, and 0
    when totalOriginalBytes is 0; no division by zero is performed: the
    checked division never fails, for any outcome sequence, and no run
    of the pipeline ends in an arithmetic fault. *)
Theorem size_reduction_percent_formula :
  (∀ outcomes : list TransformOutcome,
     ∃ rep,
       aggregate outcomes = Some rep ∧
       totalOriginalBytes rep = sumN originalSize outcomes ∧
       totalOptimizedBytes rep = sumN optimizedSize outcomes ∧
       sizeReductionPercent rep =
         (if (totalOriginalBytes rep =? 0)%N then 0%Q
          else (inject_Z (Z.of_N (totalOriginalBytes rep)
                          - Z.of_N (totalOptimizedBytes rep))
                / inject_Z (Z.of_N (totalOriginalBytes rep)) * 100)%Q)) ∧
  (∀ a events, pipeline a events ≠ Faulted) ∧
  (∀ a events entries payload rep,
     pipeline a events = Delivered entries payload rep →
     sizeReductionPercent rep =
       (if (totalOriginalBytes rep =? 0)%N then 0%Q
        else (inject_Z (Z.of_N (totalOriginalBytes rep)
                        - Z.of_N (totalOptimizedBytes rep))
              / inject_Z (Z.of_N (totalOriginalBytes rep)) * 100)%Q)).
Proof.
  split; [|split].
  - intros outcomes.
    destruct (aggregate_report outcomes) as (rep & ? & ? & ? & ? & ? & ? & ?).
    by exists rep.
  - intros a events. unfold optimize_archive.
    destruct (read_archive cfg a) as [files|e]; [|done].
    destruct (batch files (EvStart :: events)) as [|c|c|e]; simpl; try done.
    destruct (aggregate_report (by_archive_order c).*2) as (rep & -> & _).
    done.
  - intros a events entries payload rep Hrun.
    apply delivered_canonical in Hrun as (files & _ & _ & _ & _ & _ & _ & Hagg).
    destruct (aggregate_report (task <$> files))
      as (rep' & Hagg' & _ & _ & _ & _ & Hpct & _).
    by assert (rep' = rep) as <- by congruence.
Qed.


(** The reader as modelled, which tests the size ceiling before the
    paths: an archive within the ceiling that contains a path entry
    escaping the archive root fails with UnsafePath; above the ceiling
    the operation fails with ArchiveTooLarge; either way no output
    archive is produced, and every entry of any delivered archive has a
    path that stays inside the root. *)
Lemma escaping_path_rejected
    (entries : list ArchiveEntry) (e : ArchiveEntry) (events : list Event) :
  e ∈ entries → escapes_root (entryPath e) = true →
  ((cumulative_size entries ≤ sizeCeiling cfg)%N →
     read_archive cfg (Listing entries) = inr UnsafePath ∧
     pipeline (Listing entries) events = Rejected UnsafePath) ∧
  ((sizeCeiling cfg < cumulative_size entries)%N →
     pipeline (Listing entries) events = Rejected ArchiveTooLarge) ∧
  (∀ out payload rep,
     pipeline (Listing entries) events ≠ Delivered out payload rep) ∧
  (∀ a' events' out payload rep,
     pipeline a' events' = Delivered out payload rep →
     ∀ p, p ∈ out.*1 → escapes_root p = false).
Proof.
  intros He Hesc.
  assert ((cumulative_size entries ≤ sizeCeiling cfg)%N →
          read_archive cfg (Listing entries) = inr UnsafePath) as Hunsafe.
  { intros Hsize. by eapply read_archive_unsafe. }
  split; [|split; [|split]].
  - intros Hsize. split; [auto|].
    unfold optimize_archive. by rewrite Hunsafe.
  - intros Hsize. unfold optimize_archive.
    by rewrite read_archive_too_large.
  - intros out payload rep. unfold optimize_archive.
    destruct (N.le_gt_cases (cumulative_size entries) (sizeCeiling cfg)).
    + by rewrite Hunsafe.
    + by rewrite read_archive_too_large.
  - intros a' events' out payload rep Hrun p Hp.
    apply delivered_canonical in Hrun as (files & _ & Hread & _ & _ & -> & _).
    apply read_archive_inl in Hread as (entries' & _ & _ & Hsafe & -> & _).
    rewrite <- list_fmap_compose in Hp.
    apply list_elem_of_fmap in Hp as (f & -> & Hf). simpl.
    apply source_files_path in Hf as (e' & He' & <-). by apply Hsafe.
Qed.

(** C6. In the batch state machine a finished task, whatever its
    outcome, never moves the batch to Aborted; a batch is aborted only by
    a resource-limit breach, the size limit or the deadline, and then
    the caller receives that single error and no output archive; a batch
    within the size limit whose tasks all finish before any deadline
    completes, even if files failed. *)
Theorem only_limit_breach_aborts (files : list SourceFile) :
  (∀ collected i f e,
     files !! i = Some f → status (task f) = Failed →
     react files (Running collected) (EvTaskDone i) ≠ Aborted e) ∧
  (∀ events e,
     batch files events = Aborted e →
     (e = ArchiveTooLarge ∧ (sizeCeiling cfg < total_bytes files)%N) ∨
     (e = BatchTimeout ∧ EvDeadline ∈ events)) ∧
  (∀ events e,
     batch files events = Aborted e →
     conclude serialize (batch files events) = Rejected e) ∧
  (∀ events,
     (total_bytes files ≤ sizeCeiling cfg)%N →
     EvDeadline ∉ events →
     (∀ i, (i < length files)%nat → EvTaskDone i ∈ events) →
     ∃ collected, batch files (EvStart :: events) = Completed collected).
Proof.
  split; [|split; [|split]].
  - intros collected i f e _ _. apply task_never_aborts.
  - intros events e H. apply abort_cause in H as [H|[(-> & Hsize & _)|H]];
      [done|by left|by right].
  - by intros events e ->.
  - apply complete_schedule.
Qed.


(** Every valid archive is processed to completion by a schedule
    without a deadline in which every task finishes. *)
Lemma valid_archive_is_delivered (a : Archive) (files : list SourceFile)
    (events : list Event) :
  read_archive cfg a = inl files →
  EvDeadline ∉ events →
  (∀ i, (i < length files)%nat → EvTaskDone i ∈ events) →
  ∃ entries payload rep, pipeline a events = Delivered entries payload rep.
Proof.
  intros Hread Hdl Hall. unfold optimize_archive. rewrite Hread.
  apply read_archive_inl in Hread as (entries & -> & Hsize & _ & -> & _).
  destruct (complete_schedule (source_files entries) events) as [c ->];
    [|done|done|].
  { pose proof (source_files_bytes entries). lia. }
  simpl. destruct (aggregate_report (by_archive_order c).*2) as (rep & -> & _).
  eauto.
Qed.

(** What the idempotence property of section 8 needs of the registry:
    if no file shrinks further when its own output is processed again,
    the second run on the output archive reports a reduction of at most
    zero. *)
Lemma second_run_no_reduction (a : Archive) (events1 events2 : list Event)
    entries1 payload1 rep1 entries2 payload2 rep2 :
  (∀ f, no_further_reduction classify optimize cfg f) →
  pipeline a events1 = Delivered entries1 payload1 rep1 →
  pipeline (as_archive entries1) events2 = Delivered entries2 payload2 rep2 →
  (sizeReductionPercent rep2 <= 0)%Q.
Proof.
  intros Hidem H1 H2.
  apply delivered_canonical in H1 as (files & _ & _ & _ & _ & -> & _).
  apply delivered_canonical in H2 as (files2 & _ & Hread & _ & _ & _ & _ & Hagg).
  apply read_archive_inl in Hread as (entries & [= <-] & _ & _ & -> & _).
  assert (source_files
            ((λ e, {| entryPath := e.1; entryKind := RegularFile;
                      entryBytes := e.2; entryType := None |})
               <$> ((λ f, (path f, outputBytes (task f))) <$> files))
          = resubmitted classify optimize cfg <$> files) as Hfiles.
  { clear. unfold source_files.
    induction files as [|f files IH]; csimpl; [done|]. by rewrite IH. }
  rewrite Hfiles in Hagg.
  destruct (aggregate_report (task <$> (resubmitted classify optimize cfg <$> files)))
    as (rep & Hagg' & _ & _ & Hin & Hout & _).
  assert (rep = rep2) as -> by congruence.
  assert (totalOriginalBytes rep2 ≤ totalOptimizedBytes rep2)%N as Hle.
  { rewrite Hin, Hout, !sumN_fmap. apply sumN_le. intros f _. simpl.
    destruct (task_sizes (resubmitted classify optimize cfg f)) as [-> ->].
    specialize (Hidem f). unfold no_further_reduction in Hidem. lia. }
  unfold aggregate, finalize in Hagg.
  destruct (reduction_percent _ _) as [q|] eqn:Hq; [|discriminate].
  simpl in Hagg. simplify_eq. simpl in *.
  by apply (reduction_percent_sign _ _ _ Hq).
Qed.

End Batch.

(** *** The theorems at the sample archives *)

Local Abbreviation sample_run :=
  (optimize_archive Sample.classify Sample.optimize Sample.serialize Sample.cfg).
Local Abbreviation sample_task :=
  (run_transform Sample.classify Sample.optimize Sample.cfg).

Example segments_of_traversal :
  segments "../../etc/passwd" = [".."; ".."; "etc"; "passwd"].
Proof. reflexivity. Qed.

Example escapes_root_examples :
  escapes_root "../../etc/passwd" = true ∧
  escapes_root "css/../../secret" = true ∧
  escapes_root "css/../index.html" = false ∧
  escapes_root "css/a.css" = false.
Proof. repeat split. Qed.

(** The worked example of section 8: the CSS file succeeds and shrinks,
    the SCSS file fails and keeps its bytes, the README is skipped. *)
Example site_outcomes :
  (λ o, (outcomePath o, status o, originalSize o, optimizedSize o))
    <$> (sample_task <$> source_files Sample.site_entries)
  = [("css/a.css", Success, 19%N, 13%N);
     ("css/b.scss", Failed, 15%N, 15%N);
     ("README", Skipped, 5%N, 5%N)].
Proof. reflexivity. Qed.

(** A transform that grows its input is reported as a negative
    reduction. *)
Example growth_is_reported_negative :
  ∃ entries payload rep,
    sample_run (Listing [Sample.file_entry "app.js" "let x;"]) [EvTaskDone 0]
      = Delivered entries payload rep ∧
    (sizeReductionPercent rep == -100)%Q.
Proof.
  eexists _, _, _. split; [vm_compute; reflexivity|]. reflexivity.
Qed.

(** The deadline before the last task aborts the batch: one error, no
    archive. *)
Example interrupted_run :
  sample_run Sample.site Sample.interrupted = Rejected BatchTimeout.
Proof. reflexivity. Qed.

Lemma completed_batch_accounts_for_every_file_witness :
  ∃ rep,
    aggregate (sample_task <$> source_files Sample.site_entries) = Some rep ∧
    (filesOptimized rep + filesFailed rep
     + filesSkipped (sample_task <$> source_files Sample.site_entries)
     = totalFiles rep)%N ∧
    totalFiles rep = 3%N.
Proof.
  edestruct (completed_batch_accounts_for_every_file
               Sample.classify Sample.optimize Sample.serialize Sample.cfg
               Sample.site Sample.shuffled (source_files Sample.site_entries))
    as (_ & Hagg & Hcount & Htotal & _).
  - vm_compute. reflexivity.
  - vm_compute. reflexivity.
  - eexists. split; [exact Hagg|]. split; [exact Hcount|exact Htotal].
Defined.

Lemma size_reduction_percent_formula_witness :
  ∃ entries payload rep,
    sample_run Sample.site Sample.shuffled = Delivered entries payload rep ∧
    sizeReductionPercent rep =
      (inject_Z (39 - 33) / inject_Z 39 * 100)%Q.
Proof.
  eexists _, _, _. split.
  - vm_compute. reflexivity.
  - etransitivity.
    + eapply (proj2 (proj2 (size_reduction_percent_formula
                Sample.classify Sample.optimize Sample.serialize Sample.cfg))
                Sample.site Sample.shuffled).
      vm_compute. reflexivity.
    + reflexivity.
Defined.


(** The two rules of section 8, "an archive exceeding the size ceiling
    yields ArchiveTooLarge" and "path-traversal input yields
    UnsafePath", cannot both hold of one reader for every archive: an
    archive over the ceiling with an escaping entry would need both
    errors.  The specification gives no order between the two checks. *)
Lemma size_rule_conflicts_with_path_rule
    (read : Config → Archive → list SourceFile + FatalError) :
  (∀ cfg entries,
     (sizeCeiling cfg < cumulative_size entries)%N →
     read cfg (Listing entries) = inr ArchiveTooLarge) →
  (∀ cfg entries e,
     e ∈ entries → escapes_root (entryPath e) = true →
     read cfg (Listing entries) = inr UnsafePath) →
  False.
Proof.
  intros Hsize Hpath.
  specialize (Hsize Sample.tight Sample.traversal_entries).
  specialize (Hpath Sample.tight Sample.traversal_entries
                (Sample.file_entry "../../etc/passwd" "root:x:0:0")).
  rewrite Hsize in Hpath; [|by vm_compute].
  assert (inr ArchiveTooLarge = (inr UnsafePath : list SourceFile + FatalError))
    as E; [|discriminate].
  apply Hpath; [|reflexivity].
  apply list_elem_of_In. simpl. tauto.
Qed.

(** Under the size-first reader of the model and a ceiling of eight
    bytes, the archive with the entry [../../etc/passwd] is rejected as
    too large, not as an unsafe path. *)
Lemma oversized_traversal_is_too_large :
  escapes_root "../../etc/passwd" = true ∧
  read_archive Sample.tight Sample.traversal = inr ArchiveTooLarge ∧
  ¬ (∀ (cfg : Config) (entries : list ArchiveEntry),
       (∃ e, e ∈ entries ∧ escapes_root (entryPath e) = true) →
       read_archive cfg (Listing entries) = inr UnsafePath).
Proof.
  split; [reflexivity|]. split; [reflexivity|].
  intros H. specialize (H Sample.tight Sample.traversal_entries).
  assert (read_archive Sample.tight (Listing Sample.traversal_entries)
          = inr UnsafePath) as E.
  { apply H. exists (Sample.file_entry "../../etc/passwd" "root:x:0:0").
    split; [|reflexivity]. unfold Sample.traversal_entries. set_solver. }
  vm_compute in E. discriminate.
Qed.

Lemma escaping_path_rejected_witness :
  sample_run Sample.traversal Sample.shuffled = Rejected UnsafePath.
Proof.
  refine (proj2 (proj1 (escaping_path_rejected
            Sample.classify Sample.optimize Sample.serialize Sample.cfg
            Sample.traversal_entries
            (Sample.file_entry "../../etc/passwd" "root:x:0:0")
            Sample.shuffled _ _) _)).
  - unfold Sample.traversal_entries. set_solver.
  - reflexivity.
  - vm_compute. discriminate.
Defined.

Lemma only_limit_breach_aborts_witness :
  (BatchTimeout = ArchiveTooLarge ∧
   (sizeCeiling Sample.cfg < total_bytes (source_files Sample.site_entries))%N) ∨
  (BatchTimeout = BatchTimeout ∧ EvDeadline ∈ EvStart :: Sample.interrupted).
Proof.
  apply (proj1 (proj2 (only_limit_breach_aborts
           Sample.classify Sample.optimize Sample.serialize Sample.cfg
           (source_files Sample.site_entries)))
           (EvStart :: Sample.interrupted) BatchTimeout).
  vm_compute. reflexivity.
Defined.


Lemma filter_again {A} (keep : A → bool) (l : list A) :
  List.filter keep (List.filter keep l) = List.filter keep l.
Proof.
  induction l as [|x l IH]; simpl; [done|].
  destruct (keep x) eqn:Hx; simpl; [|done]. by rewrite Hx, IH.
Qed.

(** The sample registry meets the contract: stripped CSS has no blanks
    left, failed and skipped files pass through, doubling only grows. *)
Lemma sample_no_further_reduction (f : SourceFile) :
  no_further_reduction Sample.classify Sample.optimize Sample.cfg f.
Proof.
  unfold no_further_reduction, resubmitted, run_transform, Sample.classify.
  simpl.
  repeat destruct (Sample.has_suffix _ (path f)); simpl;
    rewrite ?filter_again, ?length_app; lia.
Qed.

(** The sample site processed twice: the second report shows no
    reduction. *)
Lemma sample_second_run :
  ∃ entries1 payload1 rep1 entries2 payload2 rep2,
    sample_run Sample.site Sample.shuffled = Delivered entries1 payload1 rep1 ∧
    sample_run (as_archive entries1) Sample.in_order
      = Delivered entries2 payload2 rep2 ∧
    (sizeReductionPercent rep1 == 600 # 39)%Q ∧
    (sizeReductionPercent rep2 <= 0)%Q.
Proof.
  eexists _, _, _, _, _, _.
  split; [vm_compute; reflexivity|].
  split; [vm_compute; reflexivity|].
  split; [reflexivity|].
  eapply (second_run_no_reduction Sample.classify Sample.optimize
            Sample.serialize Sample.cfg Sample.site Sample.shuffled
            Sample.in_order).
  - apply sample_no_further_reduction.
  - vm_compute. reflexivity.
  - vm_compute. reflexivity.
Qed.

(** The browser-side limit of the upload component is twice the ceiling
    the deployment gives the server: a 60 MB archive passes the dropzone
    and is left to the server to reject. *)
Lemma dropzone_limit_above_server_ceiling :
  FileUpload.maxSize FileUpload.dropzoneOptions = (2 * MAX_FILE_SIZE)%N.
Proof. reflexivity. Qed.

End PipelineFacts.

(** ** More of the dashboard's upload flow *)

Module UploadFlowFacts.
Import Js Dashboard.

Section Upload.
Variable fetch : FileUpload.File -> Exn Response.
Variable Number_toString : Q -> string.
Variable JSON_parse : string -> Exn JsValue.
Variable createObjectURL : list byte -> string.
Variable TypeError_message : string.

Local Abbreviation attempt :=
  (uploadAttempt fetch Number_toString JSON_parse createObjectURL
     TypeError_message).
Local Abbreviation upload :=
  (handleFileUpload fetch Number_toString JSON_parse createObjectURL
     TypeError_message).

(** X1. After [handleFileUpload] exactly one of [result] and [error] is
    set, whatever the earlier state held; processing is over, and the
    progress, the tab, the URL field and the progress message are as
    before the call. *)
Theorem upload_sets_result_or_error (file : FileUpload.File) (st : State) :
  (is_Some (result (upload file st)) ↔ error (upload file st) = None) ∧
  (result (upload file st) = None ↔ is_Some (error (upload file st))) ∧
  isProcessing (upload file st) = false ∧
  progress (upload file st) = 0%Z ∧
  activeTab (upload file st) = activeTab st ∧
  githubUrl (upload file st) = githubUrl st ∧
  progressMessage (upload file st) = progressMessage st.
Proof.
  unfold handleFileUpload.
  destruct (attempt file) as [r|[msg|]]; simpl; repeat split;
    try done; try (intros [? ?]; done); eauto.
Qed.

(** X2. A response that is not [ok] never yields a result or a download,
    whatever its body, even a valid ZIP; the error shown is the
    [detail] of a JSON error object when it is a non-empty string, and
    'Upload failed' when the body is not JSON or has no [detail]. *)
Theorem refused_upload_shows_detail
    (file : FileUpload.File) (resp : Response) (st : State) :
  fetch file = inl resp → ok resp = false →
  result (upload file st) = None ∧
  handleDownload (upload file st) = None ∧
  resultsDisplay (upload file st) = None ∧
  is_Some (error (upload file st)) ∧
  (json resp = None → error (upload file st) = Some "Upload failed") ∧
  (∀ props d, json resp = Some (JObj props) →
     own_prop "detail" props = JStr d → d ≠ "" →
     error (upload file st) = Some d) ∧
  (∀ props, json resp = Some (JObj props) →
     own_prop "detail" props = JUndefined →
     error (upload file st) = Some "Upload failed").
Proof.
  intros Hfetch Hok.
  assert (∃ msg, attempt file = inr (ThrownError msg) ∧
            (json resp = None → msg = "Upload failed") ∧
            (∀ props d, json resp = Some (JObj props) →
               own_prop "detail" props = JStr d → d ≠ "" → msg = d) ∧
            (∀ props, json resp = Some (JObj props) →
               own_prop "detail" props = JUndefined → msg = "Upload failed"))
    as (msg & Hatt & Hnone & Hdetail & Hmissing).
  { unfold uploadAttempt, bind, throw. rewrite Hfetch, Hok. simpl.
    destruct (json resp) as [body|]; simpl.
    - destruct (get_prop body "detail") as [detail|] eqn:Hget.
      + eexists. split; [reflexivity|]. split; [done|]. split.
        * intros props d [= ->] Hd Hne. simpl in Hget. simplify_eq.
          rewrite Hd. simpl. destruct (String.eqb d "") eqn:E; simpl; [|done].
          by apply String.eqb_eq in E.
        * intros props [= ->] Hd. simpl in Hget. simplify_eq. by rewrite Hd.
      + eexists. split; [reflexivity|]. split; [done|].
        split; intros props; intros; simplify_eq; simpl in *; done.
    - eexists. split; [reflexivity|]. repeat split; intros; simplify_eq. }
  assert (result (upload file st) = None) as Hres.
  { by rewrite DashboardFacts.upload_result, Hatt. }
  assert (error (upload file st) = Some msg) as Herr.
  { by rewrite DashboardFacts.upload_error, Hatt. }
  unfold handleDownload, resultsDisplay. rewrite Hres, Herr.
  repeat split; eauto.
  - intros H. by rewrite Hnone.
  - intros props d H1 H2 H3. by rewrite (Hdetail props d).
  - intros props H1 H2. by rewrite (Hmissing props).
Qed.

(** X3. A valid ZIP whose report header is not JSON is discarded: the
    upload ends with the parser's message as error, without result and
    without download. *)
Theorem malformed_report_discards_zip
    (file : FileUpload.File) (resp : Response) (b : list byte)
    (text msg : string) (st : State) :
  fetch file = inl resp → ok resp = true → blob resp = inl b →
  verifyZipFile b = true →
  reportHeader resp = Some text → text ≠ "" →
  JSON_parse text = inr (ThrownError msg) →
  error (upload file st) = Some msg ∧
  result (upload file st) = None ∧
  handleDownload (upload file st) = None.
Proof.
  intros Hfetch Hok Hblob Hzip Hhdr Htext Hparse.
  pose proof (DashboardFacts.attempt_report fetch Number_toString JSON_parse
                createObjectURL TypeError_message file resp b
                Hfetch Hok Hblob Hzip) as Hatt.
  rewrite Hhdr, Hparse in Hatt.
  destruct (String.eqb text "") eqn:E.
  { apply String.eqb_eq in E. contradiction. }
  assert (result (upload file st) = None) as Hres.
  { by rewrite DashboardFacts.upload_result, Hatt. }
  split; [by rewrite DashboardFacts.upload_error, Hatt|].
  split; [done|]. unfold handleDownload. by rewrite Hres.
Qed.

(** X4. A valid ZIP without a report header, or with an empty one, is
    accepted with a [null] report: the panel shows the message and the
    download link but no result cells. *)
Theorem missing_report_keeps_zip
    (file : FileUpload.File) (resp : Response) (b : list byte) (st : State) :
  fetch file = inl resp → ok resp = true → blob resp = inl b →
  verifyZipFile b = true →
  reportHeader resp = None ∨ reportHeader resp = Some "" →
  result (upload file st) =
    Some {| download_url := createObjectURL b; report := JNull;
            message := "Optimization complete!" |} ∧
  error (upload file st) = None ∧
  resultsDisplay (upload file st) =
    Some {| panelMessage := "Optimization complete!"; panelCells := None;
            panelDownload := true |}.
Proof.
  intros Hfetch Hok Hblob Hzip Hhdr.
  pose proof (DashboardFacts.attempt_report fetch Number_toString JSON_parse
                createObjectURL TypeError_message file resp b
                Hfetch Hok Hblob Hzip) as Hatt.
  assert (attempt file =
            inl {| download_url := createObjectURL b; report := JNull;
                   message := "Optimization complete!" |}) as Hatt'.
  { by destruct Hhdr as [H|H]; rewrite H in Hatt. }
  assert (result (upload file st) =
            Some {| download_url := createObjectURL b; report := JNull;
                    message := "Optimization complete!" |}) as Hres.
  { by rewrite DashboardFacts.upload_result, Hatt'. }
  split; [done|]. split; [by rewrite DashboardFacts.upload_error, Hatt'|].
  unfold resultsDisplay. by rewrite Hres.
Qed.

(** X5. Whenever an upload produced a result, what [handleDownload]
    offers is the object URL of exactly the response blob that passed
    the ZIP check, under the name optimized-website.zip (nothing if that
    URL is the empty string). *)
Theorem download_is_the_verified_blob
    (file : FileUpload.File) (st : State) (r : OptimizationResult) :
  result (upload file st) = Some r →
  ∃ resp b,
    fetch file = inl resp ∧ blob resp = inl b ∧ verifyZipFile b = true ∧
    download_url r = createObjectURL b ∧
    handleDownload (upload file st) =
      (if String.eqb (createObjectURL b) "" then None
       else Some (createObjectURL b, "optimized-website.zip")).
Proof.
  intros Hres. pose proof Hres as Hres'.
  rewrite DashboardFacts.upload_result in Hres'.
  destruct (attempt file) as [r'|t] eqn:Hatt; [|discriminate].
  simplify_eq.
  apply DashboardFacts.attempt_success in Hatt
    as (resp & b & Hfetch & _ & Hblob & Hzip & Hurl & _).
  exists resp, b. repeat split; try done.
  unfold handleDownload. by rewrite Hres, Hurl.
Qed.

End Upload.

(** X6. In the results panel a size reduction of exactly zero is shown
    as 'N/A', like a missing one; any other number, negative ones too,
    is shown as a percentage; a non-empty string in its place makes the
    cell raise a [TypeError]. *)
Theorem size_reduction_cell_cases (rep : JsValue) :
  truthy rep = true →
  (∀ q, opt_chain (opt_chain rep "stats") "size_reduction" = JNum q →
        sizeReductionCell rep =
          (if Qeq_bool q 0 then CellText "N/A" else CellPercent q)) ∧
  (opt_chain (opt_chain rep "stats") "size_reduction" = JUndefined →
   sizeReductionCell rep = CellText "N/A") ∧
  (∀ s, opt_chain (opt_chain rep "stats") "size_reduction" = JStr s → s ≠ "" →
        sizeReductionCell rep = CellTypeError).
Proof.
  intros Ht. unfold sizeReductionCell.
  rewrite (DashboardFacts.truthy_has_stats rep Ht).
  split; [|split].
  - intros q ->. simpl. by destruct (Qeq_bool q 0).
  - by intros ->.
  - intros s -> Hs. simpl. destruct (String.eqb s "") eqn:E; [|done].
    by apply String.eqb_eq in E.
Qed.

(** X21. The ZIP check reads two bytes only: a blob of at least four
    bytes passes exactly when it starts with 0x50 0x4B, whatever follows,
    so a truncated or damaged archive with that start passes; a blob of
    fewer than four bytes fails even if it starts that way. *)
Theorem zip_check_reads_two_bytes (b0 b1 : byte) (tail tail' : list byte) :
  (2 ≤ length tail)%nat → (2 ≤ length tail')%nat →
  verifyZipFile (b0 :: b1 :: tail) = verifyZipFile (b0 :: b1 :: tail') ∧
  (verifyZipFile (b0 :: b1 :: tail) = true ↔ b0 = x50 ∧ b1 = x4b) ∧
  (∀ short, (length short < 4)%nat → verifyZipFile short = false).
Proof.
  intros Htail Htail'.
  destruct tail as [|t0 [|t1 tail]]; simpl in Htail; try lia.
  destruct tail' as [|u0 [|u1 tail']]; simpl in Htail'; try lia.
  split; [reflexivity|]. split.
  - rewrite DashboardFacts.verifyZipFile_spec. simpl.
    split; [intros (_ & [= ->] & [= ->]); done|].
    intros [-> ->]. repeat split; lia.
  - intros short Hshort. unfold verifyZipFile.
    by destruct (Nat.ltb_spec (length short) 4); [|lia].
Qed.

End UploadFlowFacts.

(** ** The GitHub tab of the dashboard *)

Module GithubFacts.
Import Js Dashboard Github.

Section Handler.
Variable axios_get : string -> AxiosResponse + Rejection.
Variable JSON_parse : string -> Exn JsValue.
Variable createObjectURL : list byte -> string.

Local Abbreviation optimize_repo :=
  (handleGithubOptimization axios_get JSON_parse createObjectURL).

Lemma github_started (st : State) :
  githubUrl st ≠ "" →
  ∃ inner,
    optimize_repo st =
      setProgressMessage "Optimization complete!"
        (setProgress 100 (setIsProcessing false inner)) ∧
    ((∃ r, result inner = Some r ∧ error inner = None) ∨
     (∃ msg, result inner = None ∧ error inner = Some msg)) ∧
    activeTab inner = activeTab st ∧ githubUrl inner = githubUrl st.
Proof.
  intros Hurl. unfold handleGithubOptimization.
  destruct (String.eqb (githubUrl st) "") eqn:E.
  { by apply String.eqb_eq in E. }
  eexists. split; [reflexivity|]. simpl.
  destruct (axios_get (githubUrl st)) as [response|[detail msg|[msg|]]]; simpl.
  - destruct (JSON_parse _); simpl; (split; [left; eauto|done]).
  - split; [right; eauto|done].
  - split; [right; eauto|done].
  - split; [right; eauto|done].
Qed.

(** X7. Without a repository URL [handleGithubOptimization] changes
    nothing.  With one, it always ends with exactly one of [result] and
    [error] set, processing over, progress 100 and the progress message
    'Optimization complete!', also when the request failed. *)
Theorem github_run_always_reports_complete (st : State) :
  (githubUrl st = "" → optimize_repo st = st) ∧
  (githubUrl st ≠ "" →
     (is_Some (result (optimize_repo st)) ↔ error (optimize_repo st) = None) ∧
     (result (optimize_repo st) = None ↔ is_Some (error (optimize_repo st))) ∧
     isProcessing (optimize_repo st) = false ∧
     progress (optimize_repo st) = 100%Z ∧
     progressMessage (optimize_repo st) = "Optimization complete!").
Proof.
  split.
  - intros Hurl. unfold handleGithubOptimization. by rewrite Hurl.
  - intros Hurl.
    destruct (github_started st Hurl) as (inner & -> & Hone & _). simpl.
    destruct Hone as [(r & -> & ->)|(msg & -> & ->)];
      repeat split; try done; try (intros [? ?]; done); eauto.
Qed.

Lemma github_resolved (st : State) (response : AxiosResponse) :
  githubUrl st ≠ "" →
  axios_get (githubUrl st) = inl response →
  ∃ r,
    result (optimize_repo st) = Some r ∧
    download_url r = createObjectURL (data response) ∧
    error (optimize_repo st) = None.
Proof.
  intros Hurl Hget. unfold handleGithubOptimization.
  destruct (String.eqb (githubUrl st) "") eqn:E.
  { by apply String.eqb_eq in E. }
  simpl. rewrite Hget.
  destruct (JSON_parse _); eexists; (split; [reflexivity|]); done.
Qed.

(** X8. The GitHub path does not check the body: every resolved request
    yields a result whose download is the object URL of the body,
    whatever its bytes. *)
Theorem github_accepts_any_body (st : State) (response : AxiosResponse) :
  githubUrl st ≠ "" →
  axios_get (githubUrl st) = inl response →
  ∃ r,
    result (optimize_repo st) = Some r ∧
    download_url r = createObjectURL (data response) ∧
    error (optimize_repo st) = None ∧
    handleDownload (optimize_repo st) =
      (if String.eqb (createObjectURL (data response)) "" then None
       else Some (createObjectURL (data response), "optimized-website.zip")).
Proof.
  intros Hurl Hget.
  destruct (github_resolved st response Hurl Hget) as (r & Hr & Hd & He).
  exists r. repeat split; try done.
  unfold handleDownload. by rewrite Hr, Hd.
Qed.

(** X9. On the GitHub path a report header that is not JSON does not
    fail the run: the result is kept with a [null] report and the
    message 'Optimization complete (no report available)', and the panel
    shows the download without result cells. *)
Theorem github_malformed_report_keeps_result
    (st : State) (response : AxiosResponse) (text : string) (t : Thrown) :
  githubUrl st ≠ "" →
  axios_get (githubUrl st) = inl response →
  optimizationReport response = Some text → text ≠ "" →
  JSON_parse text = inr t →
  result (optimize_repo st) =
    Some {| download_url := createObjectURL (data response); report := JNull;
            message := "Optimization complete (no report available)" |} ∧
  error (optimize_repo st) = None ∧
  resultsDisplay (optimize_repo st) =
    Some {| panelMessage := "Optimization complete (no report available)";
            panelCells := None; panelDownload := true |}.
Proof.
  intros Hurl Hget Hhdr Htext Hparse. unfold handleGithubOptimization.
  destruct (String.eqb (githubUrl st) "") eqn:E.
  { by apply String.eqb_eq in E. }
  simpl. rewrite Hget, Hhdr.
  destruct (String.eqb text "") eqn:E'.
  { by apply String.eqb_eq in E'. }
  by rewrite Hparse.
Qed.

(** X10. The same bytes fare differently on the two paths: a body that
    fails the ZIP check is refused as an upload and offered for download
    when it comes from the GitHub endpoint. *)
Theorem zip_check_only_on_upload
    (fetch : FileUpload.File → Exn Response)
    (Number_toString : Q → string) (TypeError_message : string)
    (file : FileUpload.File) (resp : Response)
    (response : AxiosResponse) (b : list byte) (st : State) :
  verifyZipFile b = false →
  fetch file = inl resp → ok resp = true → blob resp = inl b →
  githubUrl st ≠ "" →
  axios_get (githubUrl st) = inl response → data response = b →
  result (handleFileUpload fetch Number_toString JSON_parse createObjectURL
            TypeError_message file st) = None ∧
  ∃ r, result (optimize_repo st) = Some r ∧
       download_url r = createObjectURL b.
Proof.
  intros Hzip Hfetch Hok Hblob Hurl Hget Hdata. split.
  - rewrite DashboardFacts.upload_result.
    by rewrite (DashboardFacts.attempt_invalid_zip fetch Number_toString
                  JSON_parse createObjectURL TypeError_message
                  file resp b Hfetch Hok Hblob Hzip).
  - destruct (github_resolved st response Hurl Hget) as (r & Hr & Hd & _).
    exists r. by rewrite <- Hdata.
Qed.

End Handler.

End GithubFacts.

(** ** More of the FileUpload component *)

Module FileUploadMore.
Import FileUpload.

Lemma removeFile_from (k target : nat) (uploadedFiles : list File) :
  map snd
    (List.filter (λ p, negb (Nat.eqb (fst p) target))
       (imap (λ i f, ((k + i)%nat, f)) uploadedFiles))
  = if (target <? k)%nat then uploadedFiles
    else (take (target - k) uploadedFiles
          ++ drop (S (target - k)) uploadedFiles)%list.
Proof.
  revert k.
  induction uploadedFiles as [|f files IH]; intros k.
  { simpl. destruct (target <? k)%nat; [done|]. by destruct (target - k)%nat. }
  cbn [imap]. 
  rewrite (imap_ext _ (λ i f, ((S k + i)%nat, f)))
    by (intros; unfold compose; f_equal; lia).
  cbn [List.filter fst].
  destruct (Nat.eqb_spec (k + 0) target) as [Heq|Hne]; cbn [negb map snd].
  - rewrite IH.
    destruct (Nat.ltb_spec target (S k)); [|lia].
    destruct (Nat.ltb_spec target k); [lia|].
    by replace (target - k)%nat with 0%nat by lia.
  - rewrite IH.
    destruct (Nat.ltb_spec target (S k)), (Nat.ltb_spec target k);
      try lia; [done|].
    replace (target - k)%nat with (S (target - S k)) by lia. done.
Qed.

Lemma removeFile_spec (uploadedFiles : list File) (index : nat) :
  removeFile uploadedFiles index
  = (take index uploadedFiles ++ drop (S index) uploadedFiles)%list.
Proof.
  unfold removeFile. rewrite (removeFile_from 0). simpl.
  by rewrite Nat.sub_0_r.
Qed.

(** X11. [removeFile] deletes the file at the index and keeps the others
    in order; an index past the end removes nothing, and an index inside
    the list shortens it by one. *)
Theorem removeFile_deletes_index (uploadedFiles : list File) (index : nat) :
  removeFile uploadedFiles index
    = (take index uploadedFiles ++ drop (S index) uploadedFiles)%list ∧
  ((length uploadedFiles ≤ index)%nat → removeFile uploadedFiles index = uploadedFiles) ∧
  ((index < length uploadedFiles)%nat →
   S (length (removeFile uploadedFiles index)) = length uploadedFiles).
Proof.
  split; [apply removeFile_spec|]. rewrite removeFile_spec. split.
  - intros Hle. rewrite take_ge, drop_ge by lia. by rewrite app_nil_r.
  - intros Hlt. rewrite length_app, length_take, length_drop. lia.
Qed.

(** X12. Removing the entry a drop has just appended gives back the
    list of before the drop. *)
Theorem removeFile_undoes_onDrop (uploadedFiles acceptedFiles : list File) :
  removeFile (onDrop uploadedFiles acceptedFiles).1 (length uploadedFiles)
  = uploadedFiles.
Proof.
  rewrite removeFile_spec.
  destruct acceptedFiles as [|file rest]; simpl.
  - rewrite take_ge, drop_ge by lia. by rewrite app_nil_r.
  - rewrite take_app_length.
    rewrite drop_ge by (rewrite length_app; simpl; lia).
    by rewrite app_nil_r.
Qed.

End FileUploadMore.

(** ** The TypingAnimation component *)

Module TypingFacts.
Import TypingAnimation.

Lemma substring_all (s : string) : String.substring 0 (String.length s) s = s.
Proof. induction s as [|c s IH]; simpl; [done|]. by rewrite IH. Qed.

(** X13. After n firings of the interval, n at most the length of the
    text, the component shows the first n characters and the cursor,
    and the interval is still set. *)
Theorem typing_shows_prefix (text : string) (n : nat) :
  (n ≤ String.length text)%nat →
  ticks text n =
    {| index := n; displayText := String.substring 0 n text;
       isTyping := true; timerSet := true |}.
Proof.
  induction n as [|n IH]; intros Hn.
  { unfold ticks, mounted. simpl. by destruct text. }
  unfold ticks in *. simpl. rewrite IH by lia. unfold tick. simpl.
  destruct (Nat.ltb_spec n (String.length text)); [|lia].
  by rewrite Nat.add_1_r.
Qed.

(** X14. The animation ends: from the firing after the last character
    on, the whole text is shown, the cursor is gone and the interval is
    cleared, so the state no longer changes; for the empty text that is
    the first firing. *)
Theorem typing_finishes (text : string) (n : nat) :
  (String.length text < n)%nat →
  ticks text n =
    {| index := String.length text; displayText := text;
       isTyping := false; timerSet := false |}.
Proof.
  induction n as [|n IH]; intros Hn; [lia|].
  unfold ticks in *. simpl.
  destruct (decide (n = String.length text)) as [->|Hne].
  - pose proof (typing_shows_prefix text (String.length text)) as H.
    unfold ticks in H. rewrite H by lia. unfold tick. simpl.
    rewrite Nat.ltb_irrefl. by rewrite substring_all.
  - rewrite IH by lia. reflexivity.
Qed.

End TypingFacts.

(** ** App.tsx and the Navigation bar *)

Module AppFacts.
Import App.

Local Ltac solve_mem := apply list_elem_of_In; simpl; tauto.

Lemma menu_targets (landing : bool) (href : string) :
  href ∈ (menuItems landing).*2 →
  remove_first_hash href ∈ ["dashboard"; "ai-tools"; "projects";
                            "features"; "pricing"; "about"].
Proof.
  destruct landing; simpl; intros H;
    repeat (apply elem_of_cons in H as [->|H]; [solve_mem|]);
    by apply elem_of_nil in H.
Qed.

Lemma offered_click_section (c : Click) (p : Page) :
  offered c p = true →
  currentSection p ∈ sectionNames →
  currentSection (click c p) ∈ sectionNames.
Proof.
  assert (∀ href landing, href ∈ (menuItems landing).*2 →
            remove_first_hash href ∈ sectionNames) as Hmenu.
  { intros href landing H. apply menu_targets in H.
    repeat (apply elem_of_cons in H as [->|H]; [solve_mem|]).
    by apply elem_of_nil in H. }
  destruct c; simpl; unfold handleNavigate; intros Hoff Hin;
    try done; try solve_mem.
  - apply bool_decide_eq_true in Hoff. eauto.
  - apply andb_true_iff in Hoff as [_ Hoff].
    apply bool_decide_eq_true in Hoff. eauto.
Qed.

(** X15. Whatever is clicked, starting from the opened page (menu items
    from the menu of the moment, the buttons of the views at any time,
    also while their view is leaving), the current section is one of
    eight names; the landing page is then rendered without its own menu
    exactly in the sections projects, features, pricing and about, for
    which [renderContent] has no case. *)
Theorem browsing_stays_in_known_sections (clicks : list Click) (p : Page) :
  browse clicks opened = Some p →
  currentSection p ∈ sectionNames ∧
  (renderContent (currentSection p) = LandingPage ∧
   isLandingPage (currentSection p) = false
   ↔ currentSection p ∈ ["projects"; "features"; "pricing"; "about"]).
Proof.
  intros Hbrowse.
  assert (currentSection p ∈ sectionNames) as Hin.
  { assert (currentSection opened ∈ sectionNames) as H0 by solve_mem.
    revert Hbrowse H0. generalize opened. clear.
    induction clicks as [|c clicks IH]; intros q; simpl.
    - by intros [= ->].
    - destruct (offered c q) eqn:Hoff; [|discriminate].
      intros Hb Hq. eapply IH; [done|]. by apply offered_click_section. }
  split; [done|].
  unfold sectionNames in Hin.
  repeat (apply elem_of_cons in Hin as [->|Hin];
          [simpl; split; [intros [? ?]; try done; solve_mem
                         |intros H; try done;
                          repeat (apply elem_of_cons in H as [H|H];
                                  [discriminate|]);
                          by apply elem_of_nil in H]|]).
  by apply elem_of_nil in Hin.
Qed.

(** X16. No menu item leads back to the landing menu: after a click on
    any item the page offers, on the desktop or the mobile menu, the
    navigation bar shows the application menu; an item of the landing
    menu leaves the landing page on screen, and a mobile item closes the
    menu. *)
Theorem menu_item_switches_to_app_menu (p : Page) (href : string) :
  (offered (DesktopItem href) p = true →
     isLandingPage (currentSection (click (DesktopItem href) p)) = false ∧
     (isLandingPage (currentSection p) = true →
      renderContent (currentSection (click (DesktopItem href) p)) = LandingPage)) ∧
  (offered (MobileItem href) p = true →
     isLandingPage (currentSection (click (MobileItem href) p)) = false ∧
     isMenuOpen (click (MobileItem href) p) = false ∧
     (isLandingPage (currentSection p) = true →
      renderContent (currentSection (click (MobileItem href) p)) = LandingPage)).
Proof.
  assert (∀ landing, href ∈ (menuItems landing).*2 →
            isLandingPage (remove_first_hash href) = false ∧
            (landing = true →
             renderContent (remove_first_hash href) = LandingPage)) as H.
  { intros landing Hin. destruct landing; simpl in Hin;
      repeat (apply elem_of_cons in Hin as [->|Hin]; [by split|]);
      by apply elem_of_nil in Hin. }
  split; simpl; unfold handleNavigate.
  - intros Hoff. apply bool_decide_eq_true in Hoff.
    destruct (H _ Hoff) as [H1 H2]. auto.
  - intros Hoff. apply andb_true_iff in Hoff as [_ Hoff].
    apply bool_decide_eq_true in Hoff.
    destruct (H _ Hoff) as [H1 H2]. auto.
Qed.

End AppFacts.

(** ** AITools.tsx *)

Module AIToolsFacts.
Import Js AITools.

Lemma skip_lower_tag (tag rest : string) :
  all_lower tag = true →
  skip_lower (tag ++ rest) = skip_lower rest.
Proof.
  induction tag as [|c tag IH]; simpl; [done|].
  intros [Hc Htag]%andb_true_iff. rewrite Hc. auto.
Qed.

Lemma length_append (s t : string) :
  String.length (s ++ t) = (String.length s + String.length t)%nat.
Proof. induction s as [|c s IH]; simpl; [done|]. by rewrite IH. Qed.

Lemma longer_than_fence (c : ascii) (body : string) :
  String.eqb (String c (body ++ closing_fence)) closing_fence = false.
Proof.
  destruct (String.eqb _ _) eqn:E; [|done].
  apply String.eqb_eq in E. apply (f_equal String.length) in E.
  simpl in E. rewrite length_append in E. simpl in E. lia.
Qed.

Lemma strip_closing_fence_append (body : string) :
  strip_closing_fence (body ++ closing_fence) = body.
Proof.
  induction body as [|c body IH].
  - reflexivity.
  - change (String c body ++ closing_fence)
      with (String c (body ++ closing_fence)).
    cbn [strip_closing_fence]. rewrite longer_than_fence. by rewrite IH.
Qed.

Lemma strip_closing_fence_length (code : string) :
  (String.length (strip_closing_fence code) ≤ String.length code)%nat.
Proof.
  induction code as [|c code IH]; [done|].
  cbn [strip_closing_fence].
  destruct (String.eqb _ _); simpl; lia.
Qed.

Lemma skip_lower_length (s : string) :
  (String.length (skip_lower s) ≤ String.length s)%nat.
Proof.
  induction s as [|c s IH]; simpl; [done|].
  destruct (is_lower c); simpl; lia.
Qed.

(** On a fenced input the first replacement looks at what follows the
    tag. *)
Lemma strip_opening_fence_fenced (tag rest : string) :
  all_lower tag = true →
  strip_opening_fence (fenced tag rest) =
    match skip_lower rest with
    | String c body => if Ascii.eqb c newline then body else fenced tag rest
    | EmptyString => fenced tag rest
    end.
Proof.
  intros Htag. unfold fenced, strip_opening_fence.
  rewrite !Ascii.eqb_refl. cbn [andb].
  by rewrite (skip_lower_tag tag rest Htag).
Qed.

(** X17. A fenced answer is unwrapped exactly: for every lower-case
    language tag and every body, [cleanConvertedCode] of the opening
    fence with the tag, a newline, the body, a newline and the closing
    fence is the body. *)
Theorem cleanConvertedCode_unwraps (tag body : string) :
  all_lower tag = true →
  cleanConvertedCode (fenced tag (String newline (body ++ closing_fence)))
  = body.
Proof.
  intros Htag. unfold cleanConvertedCode.
  rewrite (strip_opening_fence_fenced tag _ Htag).
  change (skip_lower (String newline (body ++ closing_fence)))
    with (String newline (body ++ closing_fence)).
  cbv beta iota. rewrite Ascii.eqb_refl. apply strip_closing_fence_append.
Qed.

(** X18. An opening fence whose tag is followed by anything but a
    newline (an upper-case letter, a digit, a space, a carriage return)
    is left in place. *)
Theorem opening_fence_needs_lowercase_line
    (tag : string) (c : ascii) (rest : string) :
  all_lower tag = true → is_lower c = false → c ≠ newline →
  strip_opening_fence (fenced tag (String c rest))
  = fenced tag (String c rest).
Proof.
  intros Htag Hc Hnl. rewrite (strip_opening_fence_fenced tag _ Htag).
  cbn [skip_lower]. rewrite Hc.
  destruct (Ascii.eqb_spec c newline); [done|reflexivity].
Qed.

(** X19. [cleanConvertedCode] never makes the code longer, and code
    that neither starts with a backtick nor ends with the closing fence
    comes back unchanged. *)
Theorem cleanConvertedCode_only_strips (code : string) :
  (String.length (cleanConvertedCode code) ≤ String.length code)%nat ∧
  ((∀ rest, code ≠ String backtick rest) →
   (∀ body, code ≠ body ++ closing_fence) →
   cleanConvertedCode code = code).
Proof.
  split.
  - unfold cleanConvertedCode.
    etransitivity; [apply strip_closing_fence_length|].
    unfold strip_opening_fence.
    destruct code as [|c1 [|c2 [|c3 rest]]]; try done.
    destruct (_ && _); [|done].
    pose proof (skip_lower_length rest) as Hlen.
    destruct (skip_lower rest) as [|c body]; [done|].
    destruct (Ascii.eqb c newline); simpl in *; lia.
  - intros Hstart Hend. unfold cleanConvertedCode.
    assert (strip_opening_fence code = code) as ->.
    { unfold strip_opening_fence.
      destruct code as [|c1 [|c2 [|c3 rest]]]; try done.
      destruct (Ascii.eqb_spec c1 backtick) as [->|]; [|done].
      by destruct (Hstart (String c2 (String c3 rest))). }
    clear Hstart. induction code as [|c code IH]; [done|].
    cbn [strip_closing_fence].
    destruct (String.eqb _ _) eqn:E.
    + apply String.eqb_eq in E. by destruct (Hend EmptyString).
    + f_equal. apply IH. intros body ->. by destruct (Hend (String c body)).
Qed.

(** X20. [getChartData] keeps all three labels as soon as one score is
    defined but only the defined scores, so the bars line up with their
    labels only when all three scores are present or none is; the two
    colour lists always have one colour per score. *)
Theorem chart_labels_match_only_all_or_none
    (analysisResult : JsValue) (chart : ChartData) :
  getChartData analysisResult = Some chart →
  let present :=
    List.filter defined
      [opt_chain analysisResult "performance_score";
       opt_chain analysisResult "seo_score";
       opt_chain analysisResult "accessibility_score"] in
  scores chart = present ∧
  labels chart = (if (0 <? length present)%nat
                  then ["Performance"; "SEO"; "Accessibility"] else []) ∧
  length (backgroundColor chart) = length present ∧
  length (borderColor chart) = length present ∧
  (length (labels chart) = length (scores chart)
   ↔ length present = 0%nat ∨ length present = 3%nat).
Proof.
  unfold getChartData.
  destruct (truthy analysisResult); [|discriminate]. simpl.
  destruct (truthy (opt_chain analysisResult "error")); [discriminate|].
  intros [= <-]. simpl.
  destruct (defined (opt_chain analysisResult "performance_score")),
           (defined (opt_chain analysisResult "seo_score")),
           (defined (opt_chain analysisResult "accessibility_score"));
    simpl; repeat split; try done; try lia; intros; lia.
Qed.

End AIToolsFacts.

(** ** The added theorems at sample inputs *)

Module MoreExamples.
Import Js.

Local Abbreviation sample_upload fetch :=
  (Dashboard.handleFileUpload fetch Sample.Number_toString Sample.JSON_parse
     Sample.createObjectURL Sample.TypeError_message).
Local Abbreviation sample_repo axios_get :=
  (Github.handleGithubOptimization axios_get Sample.JSON_parse
     Sample.createObjectURL).

Lemma refused_upload_shows_detail_witness :
  Dashboard.error
    (sample_upload MoreSamples.fetch_refused Sample.zip_file Dashboard.initialState)
  = Some "File too large".
Proof.
  refine (proj1 (proj2 (proj2 (proj2 (proj2 (proj2
            (UploadFlowFacts.refused_upload_shows_detail
               MoreSamples.fetch_refused Sample.Number_toString
               Sample.JSON_parse Sample.createObjectURL
               Sample.TypeError_message Sample.zip_file _
               Dashboard.initialState eq_refl eq_refl))))))
            [("detail", JStr "File too large")] "File too large"
            eq_refl eq_refl _).
  discriminate.
Defined.

Lemma malformed_report_discards_zip_witness :
  Dashboard.error
    (sample_upload MoreSamples.fetch_bad_header Sample.zip_file
       Dashboard.initialState)
  = Some "Unexpected token" ∧
  Dashboard.result
    (sample_upload MoreSamples.fetch_bad_header Sample.zip_file
       Dashboard.initialState) = None ∧
  Dashboard.handleDownload
    (sample_upload MoreSamples.fetch_bad_header Sample.zip_file
       Dashboard.initialState) = None.
Proof.
  refine (UploadFlowFacts.malformed_report_discards_zip
            MoreSamples.fetch_bad_header Sample.Number_toString
            Sample.JSON_parse Sample.createObjectURL Sample.TypeError_message
            Sample.zip_file _ Sample.pk_blob "not json" "Unexpected token"
            Dashboard.initialState eq_refl eq_refl eq_refl eq_refl eq_refl
            _ eq_refl).
  discriminate.
Defined.

Lemma missing_report_keeps_zip_witness :
  Dashboard.resultsDisplay
    (sample_upload MoreSamples.fetch_no_header Sample.zip_file
       Dashboard.initialState)
  = Some {| Dashboard.panelMessage := "Optimization complete!";
            Dashboard.panelCells := None; Dashboard.panelDownload := true |}.
Proof.
  refine (proj2 (proj2 (UploadFlowFacts.missing_report_keeps_zip
            MoreSamples.fetch_no_header Sample.Number_toString
            Sample.JSON_parse Sample.createObjectURL Sample.TypeError_message
            Sample.zip_file _ Sample.pk_blob Dashboard.initialState
            eq_refl eq_refl eq_refl eq_refl (or_introl eq_refl)))).
Defined.

Lemma download_is_the_verified_blob_witness :
  ∃ resp b,
    Sample.fetch Sample.zip_file = inl resp ∧
    Dashboard.blob resp = inl b ∧
    Dashboard.verifyZipFile b = true ∧
    Dashboard.handleDownload
      (sample_upload Sample.fetch Sample.zip_file Dashboard.initialState)
    = Some ("blob:optimized", "optimized-website.zip").
Proof.
  destruct (UploadFlowFacts.download_is_the_verified_blob
              Sample.fetch Sample.Number_toString Sample.JSON_parse
              Sample.createObjectURL Sample.TypeError_message
              Sample.zip_file Dashboard.initialState _ eq_refl)
    as (resp & b & H1 & H2 & H3 & _ & H5).
  exists resp, b. repeat split; try done.
Defined.

Lemma size_reduction_cell_cases_witness :
  Dashboard.sizeReductionCell (Sample.stats_report 3 0) = Dashboard.CellText "N/A" ∧
  Dashboard.sizeReductionCell (Sample.stats_report 3 (-4))
  = Dashboard.CellPercent (-4).
Proof.
  split.
  - apply (proj1 (UploadFlowFacts.size_reduction_cell_cases
                    (Sample.stats_report 3 0) eq_refl) 0%Q eq_refl).
  - apply (proj1 (UploadFlowFacts.size_reduction_cell_cases
                    (Sample.stats_report 3 (-4)) eq_refl) (-4)%Q eq_refl).
Defined.

(** The four bytes of a ZIP start followed by nothing else pass. *)
Lemma zip_check_reads_two_bytes_witness :
  Dashboard.verifyZipFile [x50; x4b; x00; x00]
  = Dashboard.verifyZipFile Sample.pk_blob.
Proof.
  refine (proj1 (UploadFlowFacts.zip_check_reads_two_bytes x50 x4b [x00; x00]
                   [x03; x04; x14; x00] _ _)); simpl; lia.
Defined.

Lemma github_run_always_reports_complete_witness :
  Dashboard.error
    (sample_repo MoreSamples.axios_down (MoreSamples.with_url "https://github.com/a/b"))
  = Some "Network Error" ∧
  Dashboard.progress
    (sample_repo MoreSamples.axios_down (MoreSamples.with_url "https://github.com/a/b"))
  = 100%Z ∧
  Dashboard.progressMessage
    (sample_repo MoreSamples.axios_down (MoreSamples.with_url "https://github.com/a/b"))
  = "Optimization complete!".
Proof.
  split; [reflexivity|].
  destruct (proj2 (GithubFacts.github_run_always_reports_complete
                     MoreSamples.axios_down Sample.JSON_parse
                     Sample.createObjectURL
                     (MoreSamples.with_url "https://github.com/a/b")))
    as (_ & _ & _ & Hp & Hm); [discriminate|].
  by split.
Defined.

Lemma github_accepts_any_body_witness :
  Dashboard.verifyZipFile (list_byte_of_string "<html>oops</html>") = false ∧
  Dashboard.handleDownload
    (sample_repo MoreSamples.axios_html (MoreSamples.with_url "https://github.com/a/b"))
  = Some ("blob:optimized", "optimized-website.zip").
Proof.
  split; [reflexivity|].
  edestruct (GithubFacts.github_accepts_any_body
               MoreSamples.axios_html Sample.JSON_parse Sample.createObjectURL
               (MoreSamples.with_url "https://github.com/a/b"))
    as (r & _ & _ & _ & Hd); [discriminate|reflexivity|].
  exact Hd.
Defined.

Lemma github_malformed_report_keeps_result_witness :
  Dashboard.resultsDisplay
    (sample_repo MoreSamples.axios_html (MoreSamples.with_url "https://github.com/a/b"))
  = Some {| Dashboard.panelMessage := "Optimization complete (no report available)";
            Dashboard.panelCells := None; Dashboard.panelDownload := true |}.
Proof.
  refine (proj2 (proj2 (GithubFacts.github_malformed_report_keeps_result
            MoreSamples.axios_html Sample.JSON_parse Sample.createObjectURL
            (MoreSamples.with_url "https://github.com/a/b") _ "not json"
            (ThrownError "Unexpected token") _ eq_refl eq_refl _ eq_refl)));
    discriminate.
Defined.

Lemma zip_check_only_on_upload_witness :
  Dashboard.result
    (sample_upload Sample.fetch Sample.other_file
       (MoreSamples.with_url "https://github.com/a/b")) = None ∧
  ∃ r, Dashboard.result
         (sample_repo MoreSamples.axios_html
            (MoreSamples.with_url "https://github.com/a/b")) = Some r ∧
       Dashboard.download_url r = "blob:optimized".
Proof.
  refine (GithubFacts.zip_check_only_on_upload
            MoreSamples.axios_html Sample.JSON_parse Sample.createObjectURL
            Sample.fetch Sample.Number_toString Sample.TypeError_message
            Sample.other_file Sample.html_response _
            (list_byte_of_string "<html>oops</html>")
            (MoreSamples.with_url "https://github.com/a/b")
            eq_refl eq_refl eq_refl eq_refl _ eq_refl eq_refl).
  discriminate.
Defined.

Lemma removeFile_deletes_index_witness :
  FileUpload.removeFile MoreSamples.three_files 1
  = [Sample.zip_file; Sample.zip_file] ∧
  FileUpload.removeFile MoreSamples.three_files 3 = MoreSamples.three_files.
Proof.
  split.
  - exact (proj1 (FileUploadMore.removeFile_deletes_index
                    MoreSamples.three_files 1)).
  - apply (proj1 (proj2 (FileUploadMore.removeFile_deletes_index
                           MoreSamples.three_files 3))).
    simpl. lia.
Defined.

Lemma typing_shows_prefix_witness :
  TypingAnimation.render (TypingAnimation.ticks "Optimize" 3) = ("Opt", true).
Proof.
  rewrite (TypingFacts.typing_shows_prefix "Optimize" 3); [reflexivity|].
  simpl. lia.
Defined.

Lemma typing_finishes_witness :
  TypingAnimation.render (TypingAnimation.ticks "" 1) = ("", false) ∧
  TypingAnimation.render (TypingAnimation.ticks "Optimize" 9) = ("Optimize", false).
Proof.
  split.
  - rewrite (TypingFacts.typing_finishes "" 1); [reflexivity|]. simpl. lia.
  - rewrite (TypingFacts.typing_finishes "Optimize" 9); [reflexivity|].
    simpl. lia.
Defined.

(** Get Started, the AI Tools quick action, then "View All Projects" on
    the dashboard that is still leaving: the landing page, under the
    application menu. *)
Lemma browsing_stays_in_known_sections_witness :
  App.renderContent "projects" = App.LandingPage ∧
  App.isLandingPage "projects" = false.
Proof.
  apply (proj2 (proj2 (AppFacts.browsing_stays_in_known_sections
                         [App.GetStarted; App.QuickActionAITools;
                          App.ViewAllProjects]
                         {| App.currentSection := "projects";
                            App.isMenuOpen := false |} eq_refl))).
  apply list_elem_of_In. simpl. tauto.
Defined.

Lemma menu_item_switches_to_app_menu_witness :
  App.isLandingPage
    (App.currentSection (App.click (App.DesktopItem "#features") App.opened))
  = false ∧
  App.renderContent
    (App.currentSection (App.click (App.DesktopItem "#features") App.opened))
  = App.LandingPage.
Proof.
  destruct (proj1 (AppFacts.menu_item_switches_to_app_menu App.opened "#features")
              eq_refl) as [H1 H2].
  split; [exact H1|exact (H2 eq_refl)].
Defined.

Lemma cleanConvertedCode_unwraps_witness :
  AITools.cleanConvertedCode
    (AITools.fenced "scss"
       (String AITools.newline ("a { b: c }" ++ AITools.closing_fence)))
  = "a { b: c }".
Proof. apply AIToolsFacts.cleanConvertedCode_unwraps. reflexivity. Defined.

(** A fence written with a carriage return before the newline stays. *)
Lemma opening_fence_needs_lowercase_line_witness :
  AITools.strip_opening_fence
    (AITools.fenced "css" (String "013"%char (String AITools.newline "a{}")))
  = AITools.fenced "css" (String "013"%char (String AITools.newline "a{}")).
Proof.
  apply AIToolsFacts.opening_fence_needs_lowercase_line;
    [reflexivity|reflexivity|discriminate].
Defined.

Lemma cleanConvertedCode_only_strips_witness :
  AITools.cleanConvertedCode "a { b: c }" = "a { b: c }".
Proof.
  apply (proj2 (AIToolsFacts.cleanConvertedCode_only_strips "a { b: c }")).
  - discriminate.
  - intros body H. pose proof (f_equal String.length H) as Hlen.
    rewrite AIToolsFacts.length_append in Hlen. simpl in Hlen.
    destruct body as [|c1 [|c2 [|c3 [|c4 [|c5 [|c6 [|c7 body]]]]]]];
      simpl in Hlen; try lia.
    cbv in H. congruence.
Defined.

Lemma chart_labels_match_only_all_or_none_witness :
  ∃ chart,
    AITools.getChartData MoreSamples.seo_only = Some chart ∧
    AITools.labels chart = ["Performance"; "SEO"; "Accessibility"] ∧
    AITools.scores chart = [JNum 80].
Proof.
  eexists. split; [reflexivity|].
  destruct (AIToolsFacts.chart_labels_match_only_all_or_none
              MoreSamples.seo_only _ eq_refl) as (H1 & H2 & _).
  split; [exact H2|exact H1].
Defined.

End MoreExamples.
